(** * Verification of the game-companion backend (backend/app/main.py)

    The service is a FastAPI application over one SQLite file and one flat
    uploads directory.  This development embeds the request handlers as
    functions over an explicit store (the two tables and the uploads
    directory) and proves the properties of the specification about them.

    Modelling conventions.
    - A Python [str] is a [string]; Python [int] is [Z]; [Optional[T]] is
      [option T]; [bytes] is [list byte].
    - A table with an [INTEGER PRIMARY KEY AUTOINCREMENT] column is a finite
      map [gmap Z row] from rowid to the remaining columns.
    - Library behaviour that the source calls but does not define
      ([str.lower], [base64.b64decode], the row order SQLite picks among ties
      of an [ORDER BY]) is a type-class operation; the few facts used about
      it are separate law classes, discharged for concrete instances.
    - The wall clock and [uuid4] are inputs of the handlers that read them.
    - A handler returns [Return r] for a response body and [Raise c d] for
      [HTTPException(status_code=c, detail=d)].  SQLite stores signed
      64-bit integers: binding a Python [int] outside that range makes
      [execute] raise [OverflowError], which the [except Exception] arm of
      the handler turns into a 500.  Failures of the disk or of the
      database file are not modelled. *)

From Stdlib Require Import ZArith String Ascii Lia.
From Stdlib.Strings Require Import Byte.
From stdpp Require Import base option list gmap fin_maps strings sorting pretty.

Local Open Scope string_scope.
Local Open Scope Z_scope.

(** ** Python values *)

Definition bytes : Type := list byte.

(** The result of a handler: a response body, or a raised [HTTPException]. *)
Inductive result (A : Type) : Type :=
| Return (a : A)
| Raise (status_code : Z) (detail : string).
Arguments Return {A} a.
Arguments Raise {A} status_code detail.

(** Truthiness of the values the handlers test with [if], [not] and [or]. *)
Definition truthy_str (s : string) : bool :=
  match s with EmptyString => false | String _ _ => true end.

Definition truthy_opt_str (o : option string) : bool :=
  match o with Some s => truthy_str s | None => false end.

(** [a or b] for an optional integer [a]: [None] and [0] are both falsy. *)
Definition or_int (a : option Z) (b : Z) : Z :=
  match a with
  | Some v => if v =? 0 then b else v
  | None => b
  end.

(** [a or None] for an optional string [a]: the empty string is falsy. *)
Definition or_None (a : option string) : option string :=
  match a with
  | Some s => if truthy_str s then Some s else None
  | None => None
  end.

(** ** Strings *)

(** [s.startswith(p)], returning what follows the prefix. *)
Fixpoint strip_prefix (p s : string) : option string :=
  match p, s with
  | EmptyString, _ => Some s
  | String a p', String b s' =>
      if Ascii.eqb a b then strip_prefix p' s' else None
  | String _ _, EmptyString => None
  end.

(** [w in s] on strings: [w] occurs contiguously somewhere in [s]. *)
Fixpoint str_in (w s : string) : bool :=
  match strip_prefix w s with
  | Some _ => true
  | None =>
      match s with
      | EmptyString => false
      | String _ s' => str_in w s'
      end
  end.

(** The specification-side notion of substring. *)
Definition substring_of (w s : string) : Prop :=
  exists pre post : string, s = pre +:+ w +:+ post.

(** [c in s] for a single character. *)
Fixpoint has_char (c : ascii) (s : string) : bool :=
  match s with
  | EmptyString => false
  | String a s' => Ascii.eqb a c || has_char c s'
  end.

(** The longest prefix of [s] without [c], and the rest (starting at the
    first [c], or empty). *)
Fixpoint break_at (c : ascii) (s : string) : string * string :=
  match s with
  | EmptyString => (EmptyString, EmptyString)
  | String a s' =>
      if Ascii.eqb a c then (EmptyString, s)
      else let '(u, v) := break_at c s' in (String a u, v)
  end.

(** [s] without one trailing [c], when it ends with [c]. *)
Fixpoint chop_last (c : ascii) (s : string) : string :=
  match s with
  | EmptyString => EmptyString
  | String a EmptyString => if Ascii.eqb a c then EmptyString else s
  | String a s' => String a (chop_last c s')
  end.

(** ** The runtime the source relies on *)

(** [str.lower]. *)
Class StrLower := str_lower : string -> string.

(** Lowercasing never creates or destroys emptiness. *)
Class StrLowerLaws `{StrLower} : Prop := {
  str_lower_empty : str_lower "" = "";
  str_lower_nonempty : forall s, s <> "" -> str_lower s <> "";
}.

(** [base64.b64decode]; [None] stands for the [binascii.Error] it raises. *)
Class B64Decode := b64decode : string -> option bytes.

(** What the database engine returns for [ORDER BY]: the rows arranged by
    the given "comes no later than" test. *)
Class OrderBy := order_by : forall A : Type, (A -> A -> bool) -> list A -> list A.
Arguments order_by {_ A} _ _.

(** The contract of [ORDER BY]: the same rows, and in order whenever the
    test is a total preorder.  The order among ties is the engine's. *)
Class OrderByLaws `{OrderBy} : Prop := {
  order_by_Permutation :
    forall (A : Type) (le : A -> A -> bool) (l : list A), order_by le l ≡ₚ l;
  order_by_StronglySorted :
    forall (A : Type) (le : A -> A -> bool) (l : list A),
      (forall x y, le x y = true \/ le y x = true) ->
      (forall x y z, le x y = true -> le y z = true -> le x z = true) ->
      StronglySorted (fun x y => le x y = true) (order_by le l);
}.

(** ** The banned-word filter *)

(** The [for] loop of [contains_mgc] over the word list. *)
Fixpoint contains_mgc_loop `{StrLower} (lower : string) (mgc_words : list string) : bool :=
  match mgc_words with
  | [] => false
  | w :: rest =>
      if negb (truthy_str w) then contains_mgc_loop lower rest
      else if str_in (str_lower w) lower then true
      else contains_mgc_loop lower rest
  end.

Definition contains_mgc `{StrLower} (text : option string) (mgc_words : list string) : bool :=
  if negb (truthy_opt_str text) then false
  else
    let lower := str_lower (default "" text) in
    contains_mgc_loop lower mgc_words.

(** ** Data model *)

(** A row of table [scores]; the rowid [id] is the key of the table. *)
Module ScoreRow.
Record t := mk {
  player_name : string;
  character : string;
  score : Z;
  found_count : Z;
  created_at : Z;
}.
End ScoreRow.

(** A row of table [reports], with the three columns added by
    [ALTER TABLE]: [audited] and [deleted] ([INTEGER NOT NULL DEFAULT 0])
    and [img_data]. *)
Module ReportRow.
Record t := mk {
  text : string;
  npc : option string;
  x : option Z;
  y : option Z;
  created_at : Z;
  audited : Z;
  deleted : Z;
  img_data : option string;
}.
End ReportRow.

(** Everything the handlers read and write: the connection [_conn] with its
    two tables, and the files of [UPLOADS_DIR] by name. *)
Record Store := mkStore {
  scores : gmap Z ScoreRow.t;
  reports : gmap Z ReportRow.t;
  uploads : gmap string bytes;
}.

Module ScoreSubmit.
Record t := mk {
  playerName : string;
  character : string;
  score : Z;
  foundCount : Z;
  ts : option Z;
}.
End ScoreSubmit.

Module ReportSubmit.
Record t := mk {
  text : string;
  npc : option string;
  x : option Z;
  y : option Z;
  ts : option Z;
  imgData : option string;
}.
End ReportSubmit.

Module ScoreItem.
Record t := mk {
  id : Z;
  playerName : string;
  character : string;
  score : Z;
  foundCount : Z;
  createdAt : Z;
}.
End ScoreItem.

Module ReportItem.
Record t := mk {
  id : Z;
  text : string;
  npc : option string;
  x : option Z;
  y : option Z;
  createdAt : Z;
  audited : Z;
  deleted : Z;
  imgData : option string;
}.
End ReportItem.

Module ReportAudit.
Record t := mk { id : Z; audited : bool }.
End ReportAudit.

Module ReportDelete.
Record t := mk { id : Z }.
End ReportDelete.

(** The dictionaries the handlers put under [data]. *)
Inductive data : Type :=
| DataTs (ts : Z)
| DataInfo (mgcCount : Z)
| DataId (id : Z)
| DataScores (items : list ScoreItem.t) (total page limit : Z)
| DataReports (items : list ReportItem.t) (total page limit : Z).

Module APIResponse.
Record t := mk {
  ok : bool;
  data : option data;
  error : option string;
}.
End APIResponse.

(** A request, as far as the handlers look at it: its headers. *)
Record Request := mkRequest { headers : gmap string string }.

(** [request.headers.get(key, dflt)]. *)
Definition headers_get (request : Request) (key dflt : string) : string :=
  default dflt (headers request !! key).

(** What a handler reads from outside the store: [int(time.time())],
    [int(time.time()*1000)] and [uuid.uuid4().hex[:8]]. *)
Record Ambient := mkAmbient {
  time_s : Z;
  time_ms : Z;
  uuid8 : string;
}.

Definition REPORT_UPLOAD_PWD : string := "123".
Definition REPORT_ADMIN_PWD : string := "123".

(** ** SQL statements *)

(** The rowid [AUTOINCREMENT] gives the next row: one more than the largest
    rowid of the table (rows are never removed), 1 for an empty table. *)
Definition next_rowid {R : Type} (tbl : gmap Z R) : Z :=
  foldr Z.max 0 (fst <$> map_to_list tbl) + 1.

(** [INSERT INTO tbl ... VALUES ...] followed by [cur.lastrowid]. *)
Definition sql_insert {R : Type} (tbl : gmap Z R) (r : R) : Z * gmap Z R :=
  let id := next_rowid tbl in (id, <[id := r]> tbl).

(** [SELECT COUNT( * ) FROM tbl]. *)
Definition sql_count {R : Type} (tbl : gmap Z R) : Z := Z.of_nat (size tbl).

(** [... LIMIT limit OFFSET offset]: a negative limit means no limit, a
    negative offset means none. *)
Definition sql_limit_offset {A : Type} (limit offset : Z) (l : list A) : list A :=
  let l := drop (Z.to_nat offset) l in
  if limit <? 0 then l else take (Z.to_nat limit) l.

(** The integers that can be bound to a parameter of a statement: signed
    64-bit.  For any other [int], [cur.execute] raises [OverflowError]
    before the statement runs. *)
Definition sqlite_int (z : Z) : bool := (- 2 ^ 63 <=? z) && (z <? 2 ^ 63).

(** An optional integer binds as [NULL] when it is [None]. *)
Definition sqlite_opt_int (o : option Z) : bool :=
  match o with Some z => sqlite_int z | None => true end.

(** [str(e)] for that [OverflowError]. *)
Definition OverflowError : string :=
  "Python int too large to convert to SQLite INTEGER".

(** [UPDATE tbl SET ... WHERE id = ?]. *)
Definition sql_update {R : Type} (f : R -> R) (id : Z) (tbl : gmap Z R) : gmap Z R :=
  alter f id tbl.

(** [ORDER BY score DESC, created_at DESC]: [a] may come before [b]. *)
Definition by_score_desc_created_desc (a b : Z * ScoreRow.t) : bool :=
  (ScoreRow.score b.2 <? ScoreRow.score a.2)
  || ((ScoreRow.score a.2 =? ScoreRow.score b.2)
      && (ScoreRow.created_at b.2 <=? ScoreRow.created_at a.2)).

(** [ORDER BY created_at DESC]. *)
Definition by_created_desc (a b : Z * ReportRow.t) : bool :=
  ReportRow.created_at b.2 <=? ReportRow.created_at a.2.

Definition set_audited (v : Z) (r : ReportRow.t) : ReportRow.t :=
  ReportRow.mk (ReportRow.text r) (ReportRow.npc r) (ReportRow.x r) (ReportRow.y r)
    (ReportRow.created_at r) v (ReportRow.deleted r) (ReportRow.img_data r).

Definition set_deleted (v : Z) (r : ReportRow.t) : ReportRow.t :=
  ReportRow.mk (ReportRow.text r) (ReportRow.npc r) (ReportRow.x r) (ReportRow.y r)
    (ReportRow.created_at r) (ReportRow.audited r) v (ReportRow.img_data r).

(** ** Saving an image *)

(** [re.match(r'^data:(image/[^;]+);base64,(.+)$', s)], returning groups 1
    and 2.  Group 1 cannot hold a [;], so it ends at the first one; [.] does
    not match a newline and [$] also matches just before a final newline,
    so group 2 is the rest of the string without one trailing newline. *)
Definition match_data_url (s : string) : option (string * string) :=
  match strip_prefix "data:" s with
  | None => None
  | Some rest =>
      let '(mime, rest) := break_at ";" rest in
      match strip_prefix "image/" mime with
      | None => None
      | Some subtype =>
          if negb (truthy_str subtype) then None
          else
            match strip_prefix ";base64," rest with
            | None => None
            | Some rest =>
                let b64 := chop_last "010" rest in
                if truthy_str b64 && negb (has_char "010" b64)
                then Some (mime, b64) else None
            end
      end
  end.

Definition ext_map : gmap string string :=
  list_to_map
    [("image/jpeg", "jpg"); ("image/jpg", "jpg"); ("image/png", "png");
     ("image/webp", "webp"); ("image/gif", "gif"); ("image/bmp", "bmp")].

(** The name the file gets: milliseconds, [_], eight hex digits, [.], ext. *)
Definition upload_fname (amb : Ambient) (ext : string) : string :=
  pretty (time_ms amb) +:+ "_" +:+ uuid8 amb +:+ "." +:+ ext.

Definition _save_data_url_to_file `{StrLower} `{B64Decode}
    (data_url : string) (amb : Ambient) (files : gmap string bytes)
    : option string * gmap string bytes :=
  if negb (truthy_str data_url) then (None, files)
  else
    match match_data_url data_url with
    | None => (None, files)
    | Some (m1, b64) =>
        let mime := str_lower m1 in
        let ext := default "jpg" (ext_map !! mime) in
        match b64decode b64 with
        | None => (None, files)
        | Some raw =>
            let fname := upload_fname amb ext in
            (Some ("/uploads/" +:+ fname), <[fname := raw]> files)
        end
    end.

(** ** Request handlers *)

Definition health (now : Z) : result APIResponse.t :=
  Return (APIResponse.mk true (Some (DataTs now)) None).

(** [info], without the path, existence and environment entries, which are
    facts of the deployment and not of the store. *)
Definition info (_mgc : list string) : result APIResponse.t :=
  Return (APIResponse.mk true (Some (DataInfo (Z.of_nat (length _mgc)))) None).

Definition _require_upload_pwd (request : Request) : result unit :=
  let pwd := headers_get request "X-Report-Pwd" "" in
  if negb (String.eqb pwd REPORT_UPLOAD_PWD)
  then Raise 403 "上传密码错误或未提供"
  else Return tt.

Definition _require_admin_pwd (request : Request) : result unit :=
  let pwd := headers_get request "X-Report-Pwd" "" in
  if negb (String.eqb pwd REPORT_ADMIN_PWD)
  then Raise 403 "管理密码错误或未提供"
  else Return tt.

(** The integers of the [INSERT] of [submit_score] can all be bound. *)
Definition score_binds (now : Z) (payload : ScoreSubmit.t) : bool :=
  sqlite_int (ScoreSubmit.score payload)
  && sqlite_int (or_int (Some (ScoreSubmit.foundCount payload)) 0)
  && sqlite_int (or_int (ScoreSubmit.ts payload) now).

Definition submit_score `{StrLower} (_mgc : list string) (now : Z)
    (payload : ScoreSubmit.t) (st : Store) : result APIResponse.t * Store :=
  if contains_mgc (Some (ScoreSubmit.playerName payload)) _mgc
     || contains_mgc (Some (ScoreSubmit.character payload)) _mgc
  then (Return (APIResponse.mk false None (Some "输入内容含违禁词，请修改")), st)
  else
    let created_at := or_int (ScoreSubmit.ts payload) now in
    if score_binds now payload then
      let '(lastrowid, tbl) :=
        sql_insert (scores st)
          (ScoreRow.mk (ScoreSubmit.playerName payload) (ScoreSubmit.character payload)
             (ScoreSubmit.score payload)
             (or_int (Some (ScoreSubmit.foundCount payload)) 0)
             created_at) in
      (Return (APIResponse.mk true (Some (DataId lastrowid)) None),
       mkStore tbl (reports st) (uploads st))
    else (Raise 500 OverflowError, st).

Definition score_item (r : Z * ScoreRow.t) : ScoreItem.t :=
  ScoreItem.mk r.1 (ScoreRow.player_name r.2) (ScoreRow.character r.2)
    (ScoreRow.score r.2) (ScoreRow.found_count r.2) (ScoreRow.created_at r.2).

Definition leaderboard `{OrderBy} (page limit : Z) (st : Store) : result APIResponse.t :=
  let page := Z.max 1 page in
  let limit := Z.max 1 (Z.min 50 limit) in
  let offset := (page - 1) * limit in
  let total := sql_count (scores st) in
  let rows :=
    sql_limit_offset limit offset
      (order_by by_score_desc_created_desc (map_to_list (scores st))) in
  let items := score_item <$> rows in
  if sqlite_int limit && sqlite_int offset
  then Return (APIResponse.mk true (Some (DataScores items total page limit)) None)
  else Raise 500 OverflowError.

(** The integers of the [INSERT] of [submit_report] can all be bound. *)
Definition report_binds (amb : Ambient) (payload : ReportSubmit.t) : bool :=
  sqlite_opt_int (ReportSubmit.x payload)
  && sqlite_opt_int (ReportSubmit.y payload)
  && sqlite_int (or_int (ReportSubmit.ts payload) (time_s amb)).

(** The image is saved before the [INSERT] runs: when the [INSERT] raises,
    the file has been written and stays. *)
Definition submit_report `{StrLower} `{B64Decode} (_mgc : list string) (amb : Ambient)
    (payload : ReportSubmit.t) (request : Request) (st : Store)
    : result APIResponse.t * Store :=
  match _require_upload_pwd request with
  | Raise status_code detail => (Raise status_code detail, st)
  | Return _ =>
      if contains_mgc (Some (ReportSubmit.text payload)) _mgc
      then (Return (APIResponse.mk false None (Some "爆料文本含违禁词，请修改")), st)
      else
        let created_at := or_int (ReportSubmit.ts payload) (time_s amb) in
        let '(img_path, files) :=
          if truthy_opt_str (ReportSubmit.imgData payload)
          then _save_data_url_to_file (default "" (ReportSubmit.imgData payload))
                 amb (uploads st)
          else (None, uploads st) in
        if report_binds amb payload then
          let '(lastrowid, tbl) :=
            sql_insert (reports st)
              (ReportRow.mk (ReportSubmit.text payload)
                 (or_None (ReportSubmit.npc payload))
                 (ReportSubmit.x payload) (ReportSubmit.y payload) created_at 0 0
                 (or_None img_path)) in
          (Return (APIResponse.mk true (Some (DataId lastrowid)) None),
           mkStore (scores st) tbl files)
        else
          (Raise 500 OverflowError, mkStore (scores st) (reports st) files)
  end.

Definition report_item (r : Z * ReportRow.t) : ReportItem.t :=
  ReportItem.mk r.1 (ReportRow.text r.2) (ReportRow.npc r.2) (ReportRow.x r.2)
    (ReportRow.y r.2) (ReportRow.created_at r.2)
    (or_int (Some (ReportRow.audited r.2)) 0)
    (or_int (Some (ReportRow.deleted r.2)) 0)
    (ReportRow.img_data r.2).

Definition list_reports `{OrderBy} (page limit : Z) (st : Store) : result APIResponse.t :=
  let page := Z.max 1 page in
  let limit := Z.max 1 (Z.min 50 limit) in
  let offset := (page - 1) * limit in
  let total := sql_count (reports st) in
  let rows :=
    sql_limit_offset limit offset
      (order_by by_created_desc
         (filter (fun r : Z * ReportRow.t => ReportRow.deleted r.2 = 0)
            (map_to_list (reports st)))) in
  let items := report_item <$> rows in
  if sqlite_int limit && sqlite_int offset
  then Return (APIResponse.mk true (Some (DataReports items total page limit)) None)
  else Raise 500 OverflowError.

Definition audit_report (payload : ReportAudit.t) (request : Request) (st : Store)
    : result APIResponse.t * Store :=
  match _require_admin_pwd request with
  | Raise status_code detail => (Raise status_code detail, st)
  | Return _ =>
      if sqlite_int (ReportAudit.id payload) then
        let tbl :=
          sql_update (set_audited (if ReportAudit.audited payload then 1 else 0))
            (ReportAudit.id payload) (reports st) in
        (Return (APIResponse.mk true None None), mkStore (scores st) tbl (uploads st))
      else (Raise 500 OverflowError, st)
  end.

Definition delete_report (payload : ReportDelete.t) (request : Request) (st : Store)
    : result APIResponse.t * Store :=
  match _require_admin_pwd request with
  | Raise status_code detail => (Raise status_code detail, st)
  | Return _ =>
      if sqlite_int (ReportDelete.id payload) then
        let tbl := sql_update (set_deleted 1) (ReportDelete.id payload) (reports st) in
        (Return (APIResponse.mk true None None), mkStore (scores st) tbl (uploads st))
      else (Raise 500 OverflowError, st)
  end.

(** ** The service as a whole *)

(** One call of an endpoint, with everything it is given. *)
Inductive call : Type :=
| GetHealth (now : Z)
| GetInfo
| PostScoresSubmit (now : Z) (payload : ScoreSubmit.t)
| GetScoresLeaderboard (page limit : Z)
| PostReportsSubmit (amb : Ambient) (payload : ReportSubmit.t) (request : Request)
| GetReportsList (page limit : Z)
| PostReportsAudit (payload : ReportAudit.t) (request : Request)
| PostReportsDelete (payload : ReportDelete.t) (request : Request).

Definition serve `{StrLower} `{B64Decode} `{OrderBy} (_mgc : list string)
    (c : call) (st : Store) : result APIResponse.t * Store :=
  match c with
  | GetHealth now => (health now, st)
  | GetInfo => (info _mgc, st)
  | PostScoresSubmit now payload => submit_score _mgc now payload st
  | GetScoresLeaderboard page limit => (leaderboard page limit st, st)
  | PostReportsSubmit amb payload request => submit_report _mgc amb payload request st
  | GetReportsList page limit => (list_reports page limit st, st)
  | PostReportsAudit payload request => audit_report payload request st
  | PostReportsDelete payload request => delete_report payload request st
  end.

(** The store after a sequence of calls. *)
Definition serve_all `{StrLower} `{B64Decode} `{OrderBy} (_mgc : list string)
    (cs : list call) (st : Store) : Store :=
  foldl (fun st c => (serve _mgc c st).2) st cs.

(** ** A concrete runtime

    One implementation of each runtime operation, to run the handlers on
    concrete requests: lowercasing of the ASCII letters, the RFC 4648
    decoder of canonical base64 text, and a merge sort for [ORDER BY]. *)

Definition ascii_lower (c : ascii) : ascii :=
  let n := N_of_ascii c in
  if ((65 <=? n) && (n <=? 90))%N then ascii_of_N (n + 32) else c.

Fixpoint ascii_str_lower (s : string) : string :=
  match s with
  | EmptyString => EmptyString
  | String c s' => String (ascii_lower c) (ascii_str_lower s')
  end.

#[export] Instance ascii_StrLower : StrLower := ascii_str_lower.

(** The value of a character of the base64 alphabet. *)
Definition b64_value (c : ascii) : option N :=
  let n := N_of_ascii c in
  if ((65 <=? n) && (n <=? 90))%N then Some (n - 65)%N
  else if ((97 <=? n) && (n <=? 122))%N then Some (n - 71)%N
  else if ((48 <=? n) && (n <=? 57))%N then Some (n + 4)%N
  else if (n =? 43)%N then Some 62%N
  else if (n =? 47)%N then Some 63%N
  else None.

Definition byte_of_N (n : N) : byte :=
  default x00 (Byte.of_N (n mod 256)%N).

(** The bytes of a 24-bit group. *)
Definition b64_bytes (n : N) : bytes :=
  [byte_of_N (n / 65536); byte_of_N (n / 256); byte_of_N n].

(** The last group of four characters, where [=] may pad. *)
Definition b64_last (a b c d : ascii) : option bytes :=
  match b64_value a, b64_value b with
  | Some va, Some vb =>
      match b64_value c, b64_value d with
      | Some vc, Some vd =>
          Some (b64_bytes (va * 262144 + vb * 4096 + vc * 64 + vd)%N)
      | Some vc, None =>
          if Ascii.eqb d "=" && (vc mod 4 =? 0)%N
          then Some (take 2 (b64_bytes (va * 262144 + vb * 4096 + vc * 64)%N))
          else None
      | None, _ =>
          if Ascii.eqb c "=" && Ascii.eqb d "=" && (vb mod 16 =? 0)%N
          then Some (take 1 (b64_bytes (va * 262144 + vb * 4096)%N))
          else None
      end
  | _, _ => None
  end.

Fixpoint b64decode_rfc4648 (s : string) : option bytes :=
  match s with
  | EmptyString => Some []
  | String a (String b (String c (String d rest))) =>
      match rest with
      | EmptyString => b64_last a b c d
      | String _ _ =>
          match b64_value a, b64_value b, b64_value c, b64_value d with
          | Some va, Some vb, Some vc, Some vd =>
              match b64decode_rfc4648 rest with
              | Some tl =>
                  Some (b64_bytes (va * 262144 + vb * 4096 + vc * 64 + vd)%N ++ tl)%list
              | None => None
              end
          | _, _, _, _ => None
          end
      end
  | _ => None
  end.

#[export] Instance rfc4648_B64Decode : B64Decode := b64decode_rfc4648.

#[export] Instance merge_sort_OrderBy : OrderBy :=
  fun A le l =>
    @merge_sort A (fun x y => le x y = true) (fun x y => decide (le x y = true)) l.

(** ** The specification's vocabulary *)

(** What the regular expression of [_save_data_url_to_file] accepts, with
    its two groups: [data:], a MIME type [image/<subtype>] with a non-empty
    subtype free of [;], [;base64,], a non-empty payload on one line, and
    at most one final newline. *)
Definition image_data_url (s mime b64 : string) : Prop :=
  exists subtype tail : string,
    s = "data:" +:+ mime +:+ ";base64," +:+ b64 +:+ tail
    /\ mime = "image/" +:+ subtype
    /\ subtype <> "" /\ has_char ";" subtype = false
    /\ b64 <> "" /\ has_char "010" b64 = false
    /\ (tail = "" \/ tail = String "010" "").


(** A text is banned when some non-empty word of the list occurs in it,
    both lowercased. *)
Definition banned `{StrLower} (text : string) (mgc_words : list string) : Prop :=
  exists w, w ∈ mgc_words /\ w <> ""
            /\ substring_of (str_lower w) (str_lower text).

(** The request carries the header [X-Report-Pwd] with the upload password,
    respectively the administrative password. *)
Definition upload_authorized (request : Request) : Prop :=
  headers request !! "X-Report-Pwd" = Some REPORT_UPLOAD_PWD.

Definition admin_authorized (request : Request) : Prop :=
  headers request !! "X-Report-Pwd" = Some REPORT_ADMIN_PWD.

(** The rows [/api/reports/list] pages through: those not soft-deleted. *)
Definition listed_reports (st : Store) : gmap Z ReportRow.t :=
  filter (fun kv : Z * ReportRow.t => ReportRow.deleted kv.2 = 0) (reports st).

(** The report [id], stored as [row] before it was deleted, is still in
    the table, marked deleted, with its content as it was. *)
Definition soft_deleted (id : Z) (row : ReportRow.t) (st : Store) : Prop :=
  exists row' : ReportRow.t,
    reports st !! id = Some row'
    /\ ReportRow.deleted row' = 1
    /\ ReportRow.text row' = ReportRow.text row
    /\ ReportRow.npc row' = ReportRow.npc row
    /\ ReportRow.x row' = ReportRow.x row
    /\ ReportRow.y row' = ReportRow.y row
    /\ ReportRow.created_at row' = ReportRow.created_at row
    /\ ReportRow.img_data row' = ReportRow.img_data row.

(** The pagination contract: the page number is raised to 1, the limit
    is brought into [1, 50]. *)
Definition clamped_page (page page' : Z) : Prop :=
  (page < 1 /\ page' = 1) \/ (1 <= page /\ page' = page).

Definition clamped_limit (limit limit' : Z) : Prop :=
  (limit < 1 /\ limit' = 1) \/ (1 <= limit <= 50 /\ limit' = limit)
  \/ (50 < limit /\ limit' = 50).

(** [items] is page [page] of [ranking], [limit] rows to the page. *)
Definition is_page {A : Type} (page limit : Z) (ranking items : list A) : Prop :=
  Z.of_nat (length items) <= limit
  /\ forall k : nat, Z.of_nat k < limit ->
       items !! k = ranking !! (Z.to_nat ((page - 1) * limit) + k)%nat.

(** The row order the leaderboard promises, on the items it returns. *)
Definition score_item_order (a b : ScoreItem.t) : Prop :=
  ScoreItem.score a > ScoreItem.score b
  \/ (ScoreItem.score a = ScoreItem.score b
      /\ ScoreItem.createdAt a >= ScoreItem.createdAt b).

(** ** Concrete requests used in the examples *)

Definition hdr (pwd : string) : Request :=
  mkRequest {[ "X-Report-Pwd" := pwd ]}.

Definition no_hdr : Request := mkRequest ∅.

Definition empty_store : Store := mkStore ∅ ∅ ∅.

Definition three_scores : Store :=
  mkStore
    (list_to_map
       [(1, ScoreRow.mk "Ann" "Fox" 100 3 1700000000);
        (2, ScoreRow.mk "Bob" "Owl" 250 7 1700000050);
        (3, ScoreRow.mk "Cid" "Fox" 100 1 1700000100)])
    ∅ ∅.

(** One report, soft-deleted. *)
Definition one_deleted_report : Store :=
  mkStore ∅ {[ 1 := ReportRow.mk "gone" None None None 1700000000 0 1 None ]} ∅.

Definition report5 : ReportRow.t :=
  ReportRow.mk "a chest behind the mill" (Some "Miller") (Some 12) (Some (-4))
    1700000200 0 0 None.

(** One report, with rowid 5, neither audited nor deleted. *)
Definition one_report : Store := mkStore ∅ {[ 5 := report5 ]} ∅.

(** A page number whose offset is beyond what SQLite can bind, and a rowid
    no row can have. *)
Definition page_too_far : Z := 2 ^ 63 + 1.
Definition id_too_big : Z := 2 ^ 63.

Definition amb0 : Ambient := mkAmbient 1700000000 1700000000123 "0a1b2c3d".

(** A mixed sequence of calls: a new report, an audit of report 5, a
    listing, a second delete of report 5, a score. *)
Definition calls5 : list call :=
  [PostReportsSubmit amb0
     (ReportSubmit.mk "an owl at the gate" None None None (Some 1700000300) None)
     (hdr "123");
   PostReportsAudit (ReportAudit.mk 5 false) (hdr "123");
   GetReportsList 1 20;
   PostReportsDelete (ReportDelete.mk 5) (hdr "123");
   PostScoresSubmit 1700000400 (ScoreSubmit.mk "Ann" "Fox" 100 3 None)].

(** ** Rows and the items made of them *)

(** The item [it] carries the rowid and every column of the score row [r]. *)
Definition score_item_of (r : Z * ScoreRow.t) (it : ScoreItem.t) : Prop :=
  ScoreItem.id it = r.1
  /\ ScoreItem.playerName it = ScoreRow.player_name r.2
  /\ ScoreItem.character it = ScoreRow.character r.2
  /\ ScoreItem.score it = ScoreRow.score r.2
  /\ ScoreItem.foundCount it = ScoreRow.found_count r.2
  /\ ScoreItem.createdAt it = ScoreRow.created_at r.2.

(** The item [it] carries the rowid and every column of the report row [r]. *)
Definition report_item_of (r : Z * ReportRow.t) (it : ReportItem.t) : Prop :=
  ReportItem.id it = r.1
  /\ ReportItem.text it = ReportRow.text r.2
  /\ ReportItem.npc it = ReportRow.npc r.2
  /\ ReportItem.x it = ReportRow.x r.2
  /\ ReportItem.y it = ReportRow.y r.2
  /\ ReportItem.createdAt it = ReportRow.created_at r.2
  /\ ReportItem.audited it = ReportRow.audited r.2
  /\ ReportItem.deleted it = ReportRow.deleted r.2
  /\ ReportItem.imgData it = ReportRow.img_data r.2.

(** The order of the leaderboard, on rows: a higher score first, and among
    equal scores the later creation time first. *)
Definition score_row_order (a b : Z * ScoreRow.t) : Prop :=
  ScoreRow.score a.2 > ScoreRow.score b.2
  \/ (ScoreRow.score a.2 = ScoreRow.score b.2
      /\ ScoreRow.created_at a.2 >= ScoreRow.created_at b.2).

(** [items] is page [page] of the rows [ranking], [limit] rows to the page:
    item [k] is made of row [(page - 1) * limit + k], and there are no
    items where the rows end or the page is full. *)
Definition page_of {A B : Type} (made_of : A -> B -> Prop) (page limit : Z)
    (ranking : list A) (items : list B) : Prop :=
  Z.of_nat (length items) <= limit
  /\ forall k : nat, Z.of_nat k < limit ->
       match ranking !! (Z.to_nat ((page - 1) * limit) + k)%nat with
       | Some r => exists it, items !! k = Some it /\ made_of r it
       | None => items !! k = None
       end.

(** ** Loading the word list *)

(** [str.strip]. *)
Class StrStrip := str_strip : string -> string.

(** [_load_mgc_words].  [file] is [None] when [MGC_PATH] does not exist or
    reading it raises, and otherwise the lines that iterating over the
    open file yields. *)
Definition _load_mgc_words `{StrStrip} (file : option (list string)) : list string :=
  match file with
  | None => []
  | Some lines =>
      str_strip <$> filter (fun line => truthy_str (str_strip line) = true) lines
  end.

(** Stripping of the ASCII whitespace characters, for the examples. *)
Definition ascii_isspace (c : ascii) : bool :=
  let n := N_of_ascii c in
  (((9 <=? n) && (n <=? 13)) || ((28 <=? n) && (n <=? 32)))%N.

Fixpoint ascii_lstrip (s : string) : string :=
  match s with
  | EmptyString => EmptyString
  | String c s' => if ascii_isspace c then ascii_lstrip s' else s
  end.

Fixpoint ascii_rstrip (s : string) : string :=
  match s with
  | EmptyString => EmptyString
  | String c s' =>
      let r := ascii_rstrip s' in
      if ascii_isspace c && negb (truthy_str r) then EmptyString else String c r
  end.

#[export] Instance ascii_StrStrip : StrStrip :=
  fun s => ascii_rstrip (ascii_lstrip s).

(** ** More of the specification's vocabulary *)

(** The rows the leaderboard pages through, in the order of its query. *)
Definition score_ranking `{OrderBy} (st : Store) : list (Z * ScoreRow.t) :=
  order_by by_score_desc_created_desc (map_to_list (scores st)).

(** The rows the listing of reports pages through, in the order of its
    query. *)
Definition report_listing `{OrderBy} (st : Store) : list (Z * ReportRow.t) :=
  order_by by_created_desc
    (filter (fun r : Z * ReportRow.t => ReportRow.deleted r.2 = 0)
       (map_to_list (reports st))).

(** Two report rows agree on every column but the two moderation flags. *)
Definition same_content (row row' : ReportRow.t) : Prop :=
  ReportRow.text row' = ReportRow.text row
  /\ ReportRow.npc row' = ReportRow.npc row
  /\ ReportRow.x row' = ReportRow.x row
  /\ ReportRow.y row' = ReportRow.y row
  /\ ReportRow.created_at row' = ReportRow.created_at row
  /\ ReportRow.img_data row' = ReportRow.img_data row.

(** The call carries the password its endpoint asks for. *)
Definition carries_password (c : call) : Prop :=
  match c with
  | PostReportsSubmit _ _ request => upload_authorized request
  | PostReportsAudit _ request => admin_authorized request
  | PostReportsDelete _ request => admin_authorized request
  | _ => False
  end.

(** Every image path stored in a report names a file of the uploads
    directory. *)
Definition image_paths_resolve (st : Store) : Prop :=
  forall (id : Z) (row : ReportRow.t) (path : string),
    reports st !! id = Some row -> ReportRow.img_data row = Some path ->
    exists fname : string,
      path = "/uploads/" +:+ fname /\ is_Some (uploads st !! fname).

(** Both moderation flags of every report are 0 or 1. *)
Definition flags_boolean (st : Store) : Prop :=
  forall (id : Z) (row : ReportRow.t),
    reports st !! id = Some row ->
    (ReportRow.audited row = 0 \/ ReportRow.audited row = 1)
    /\ (ReportRow.deleted row = 0 \/ ReportRow.deleted row = 1).

(** The rowids of a table are 1, 2, ... up to the number of its rows. *)
Definition rowids_contiguous {R : Type} (tbl : gmap Z R) : Prop :=
  forall k : Z, is_Some (tbl !! k) <-> 1 <= k <= Z.of_nat (size tbl).

(** The extensions an uploaded file can get. *)
Definition upload_extensions : list string := ["jpg"; "png"; "webp"; "gif"; "bmp"].

(** The word file of the examples: a word, a blank line, a padded word. *)
Definition mgc_lines : list string :=
  ["bad" +:+ String "010" ""; String "010" ""; "  Ugly " +:+ String "010" ""].

(** One report with an uploaded image. *)
Definition one_image_report : Store :=
  mkStore ∅
    {[ 1 := ReportRow.mk "a fox on the roof" None None None 1700000000 0 0
              (Some "/uploads/1700000000123_0a1b2c3d.png") ]}
    {[ "1700000000123_0a1b2c3d.png" := [x68; x69] ]}.

(** Calls of every endpoint, none with its password. *)
Definition calls_no_pwd : list call :=
  [PostReportsSubmit amb0
     (ReportSubmit.mk "hello" None None None None (Some "data:image/png;base64,aGk="))
     no_hdr;
   PostReportsDelete (ReportDelete.mk 5) (hdr "12");
   PostReportsAudit (ReportAudit.mk 5 true) no_hdr;
   PostScoresSubmit 1700000400 (ScoreSubmit.mk "Ann" "Fox" 100 3 None);
   GetReportsList 1 20; GetScoresLeaderboard 1 20; GetHealth 1700000500; GetInfo].

(** An upload with an image, then a delete of the report it made. *)
Definition calls_upload_delete : list call :=
  [PostReportsSubmit amb0
     (ReportSubmit.mk "hello" None None None None (Some "data:image/png;base64,aGk="))
     (hdr "123");
   PostReportsAudit (ReportAudit.mk 1 true) (hdr "123");
   PostReportsDelete (ReportDelete.mk 1) (hdr "123");
   PostReportsSubmit amb0
     (ReportSubmit.mk "again" None None None None None) (hdr "123")].

(** * Proofs *)

(** Let [simpl] compute the append of a string that starts with a constructor. *)
#[local] Arguments String.append !s1 s2 : simpl nomatch.

(** ** Strings *)

Lemma truthy_str_true (s : string) : truthy_str s = true <-> s <> "".
Proof. destruct s; simpl; split; congruence. Qed.

Lemma truthy_str_false (s : string) : truthy_str s = false <-> s = "".
Proof. destruct s; simpl; split; congruence. Qed.

Lemma strip_prefix_Some (p s r : string) :
  strip_prefix p s = Some r <-> s = p +:+ r.
Proof.
  revert s; induction p as [|a p IH]; intros s; simpl.
  - split; congruence.
  - destruct s as [|b s]; [split; discriminate|].
    destruct (Ascii.eqb_spec a b) as [->|Hab].
    + rewrite IH. simpl. split; [by intros -> | by intros [=]].
    + split; [discriminate | intros [=]; congruence].
Qed.

Lemma strip_prefix_app (p r : string) : strip_prefix p (p +:+ r) = Some r.
Proof. by apply strip_prefix_Some. Qed.

Lemma str_in_unfold (w s : string) :
  str_in w s =
  match strip_prefix w s with
  | Some _ => true
  | None => match s with EmptyString => false | String _ s' => str_in w s' end
  end.
Proof. by destruct s. Qed.

Lemma str_in_spec (w s : string) : str_in w s = true <-> substring_of w s.
Proof.
  split.
  - induction s as [|a s IH]; rewrite str_in_unfold.
    + destruct (strip_prefix w "") as [r|] eqn:E; [|discriminate].
      intros _. exists "", r. simpl. by apply strip_prefix_Some.
    + destruct (strip_prefix w (String a s)) as [r|] eqn:E.
      * intros _. exists "", r. simpl. by apply strip_prefix_Some.
      * intros [pre [post ->]]%IH. by exists (String a pre), post.
  - intros (pre & post & ->).
    induction pre as [|a pre IH]; rewrite str_in_unfold; simpl.
    + by rewrite strip_prefix_app.
    + by destruct (strip_prefix w _).
Qed.

Lemma substring_of_empty (w : string) : substring_of w "" -> w = "".
Proof.
  intros (pre & post & E). destruct pre; [|discriminate].
  by destruct w.
Qed.

Lemma has_char_app (c : ascii) (u v : string) :
  has_char c (u +:+ v) = has_char c u || has_char c v.
Proof. induction u as [|a u IH]; simpl; [done|]. by rewrite IH, orb_assoc. Qed.

Lemma string_app_nil_r (u : string) : u +:+ "" = u.
Proof. induction u as [|a u IH]; simpl; congruence. Qed.

(** [break_at] splits at the first occurrence of the character. *)
Lemma break_at_spec (c : ascii) (s u v : string) :
  break_at c s = (u, v) <->
  s = u +:+ v /\ has_char c u = false /\ (v = "" \/ exists v', v = String c v').
Proof.
  revert u v; induction s as [|a s IH]; intros u v; simpl.
  - split.
    + intros [= <- <-]. auto.
    + intros (E & _ & _). destruct u; [|discriminate]. simpl in E. by subst.
  - destruct (Ascii.eqb_spec a c) as [->|Hac].
    + split.
      * intros [= <- <-]. eauto.
      * intros (E & Hu & Hv). destruct u as [|b u]; simpl in *.
        -- by subst.
        -- injection E as <- _. by rewrite Ascii.eqb_refl in Hu.
    + destruct (break_at c s) as [u0 v0].
      split.
      * intros [= <- <-]. destruct (proj1 (IH u0 v0) eq_refl) as (-> & Hu & Hv).
        simpl. rewrite Hu. by destruct (Ascii.eqb_spec a c).
      * intros (E & Hu & Hv). destruct u as [|b u]; simpl in *.
        -- destruct Hv as [->|[v' ->]]; [discriminate | congruence].
        -- injection E as <- ->. apply orb_false_iff in Hu as [_ Hu].
           assert ((u0, v0) = (u, v)) as [= -> ->] by (apply IH; auto).
           done.
Qed.

Lemma chop_last_snoc (c : ascii) (s : string) : chop_last c (s +:+ String c "") = s.
Proof.
  induction s as [|a s IH]; simpl.
  - by rewrite Ascii.eqb_refl.
  - rewrite IH. by destruct s.
Qed.

Lemma chop_last_no_char (c : ascii) (s : string) :
  has_char c s = false -> chop_last c s = s.
Proof.
  induction s as [|a s IH]; simpl; [done|].
  intros [Ha Hs]%orb_false_iff. rewrite (IH Hs).
  destruct s; [by rewrite Ha | done].
Qed.

Lemma chop_last_tail (c : ascii) (s : string) :
  s = chop_last c s \/ s = chop_last c s +:+ String c "".
Proof.
  induction s as [|a s IH]; simpl; [by left|].
  destruct s as [|b s].
  - destruct (Ascii.eqb_spec a c) as [->|]; [by right | by left].
  - destruct IH as [IH|IH]; [left | right]; simpl in *; congruence.
Qed.

(** ** The banned-word filter *)

Section contains_mgc.
Context `{StrLowerLaws}.

Lemma contains_mgc_loop_spec (lower : string) (mgc_words : list string) :
  contains_mgc_loop lower mgc_words = true <->
  exists w, w ∈ mgc_words /\ w <> "" /\ substring_of (str_lower w) lower.
Proof.
  induction mgc_words as [|w ws IH]; simpl.
  - split; [discriminate | intros (w & Hw & _); by apply elem_of_nil in Hw].
  - destruct (truthy_str w) eqn:Ew; simpl.
    + apply truthy_str_true in Ew.
      destruct (str_in (str_lower w) lower) eqn:Ein.
      * split; [intros _ | done]. exists w. rewrite <- str_in_spec.
        split_and!; [left | done | done].
      * rewrite IH. split.
        -- intros (w' & ? & ? & ?). exists w'. split_and!; [by right | done | done].
        -- intros (w' & [->|?]%elem_of_cons & ? & Hsub); [|by exists w'].
           apply str_in_spec in Hsub. congruence.
    + apply truthy_str_false in Ew. rewrite IH. split.
      * intros (w' & ? & ? & ?). exists w'. split_and!; [by right | done | done].
      * intros (w' & [->|?]%elem_of_cons & ? & ?); [done | by exists w'].
Qed.

(** The filter on a present text: some non-empty word of the list is,
    lowercased, a substring of the lowercased text. *)
Lemma contains_mgc_Some (text : string) (mgc_words : list string) :
  contains_mgc (Some text) mgc_words = true <-> banned text mgc_words.
Proof.
  unfold contains_mgc, banned; simpl. destruct (truthy_str text) eqn:Et; simpl.
  - apply contains_mgc_loop_spec.
  - apply truthy_str_false in Et as ->. split; [discriminate|].
    intros (w & _ & Hw & Hsub). rewrite str_lower_empty in Hsub.
    apply substring_of_empty in Hsub. by apply str_lower_nonempty in Hw.
Qed.
End contains_mgc.

Lemma ascii_str_lower_laws : @StrLowerLaws ascii_StrLower.
Proof.
  split; [done|]. intros [|c s] Hs; [done|]. discriminate.
Qed.

(** C1. [contains_mgc] answers true exactly when some non-empty word of the
    list occurs, after lowercasing both, as a substring of the text; on an
    absent or empty text it answers false whatever the word list. *)
Theorem contains_mgc_correct `{StrLowerLaws}
    (text : option string) (mgc_words : list string) :
  (contains_mgc text mgc_words = true <->
     exists t w, text = Some t /\ w ∈ mgc_words /\ w <> ""
                 /\ substring_of (str_lower w) (str_lower t))
  /\ contains_mgc None mgc_words = false
  /\ contains_mgc (Some "") mgc_words = false.
Proof.
  split_and!; [|done|done].
  destruct text as [t|].
  - rewrite contains_mgc_Some. unfold banned. split.
    + intros (w & ?). by exists t, w.
    + intros (t' & w & [= <-] & ?). by exists w.
  - split; [discriminate | by intros (? & ? & ? & _)].
Qed.

Lemma contains_mgc_correct_witness :
  (contains_mgc (Some "Hello BAD world") [""; "bad"] = true <->
     exists t w, Some "Hello BAD world" = Some t /\ w ∈ [""; "bad"] /\ w <> ""
                 /\ substring_of (str_lower w) (str_lower t))
  /\ contains_mgc None [""; "bad"] = false
  /\ contains_mgc (Some "") [""; "bad"] = false.
Proof.
  exact (@contains_mgc_correct ascii_StrLower ascii_str_lower_laws
           (Some "Hello BAD world") [""; "bad"]).
Defined.

(** ** The data-URL pattern *)

#[local] Arguments strip_prefix : simpl never.
#[local] Arguments break_at : simpl never.
#[local] Arguments chop_last : simpl never.

(** [match_data_url] accepts exactly the strings of the shape
    [image_data_url], and returns the two groups of that shape. *)
Lemma match_data_url_spec (s mime b64 : string) :
  match_data_url s = Some (mime, b64) <-> image_data_url s mime b64.
Proof.
  unfold match_data_url, image_data_url. split.
  - destruct (strip_prefix "data:" s) as [r1|] eqn:E1; [|discriminate].
    apply strip_prefix_Some in E1 as ->.
    destruct (break_at ";" r1) as [m r2] eqn:E2.
    apply break_at_spec in E2 as (-> & Hm & _).
    destruct (strip_prefix "image/" m) as [sub|] eqn:E3; [|discriminate].
    apply strip_prefix_Some in E3 as ->.
    destruct (truthy_str sub) eqn:E4; [|discriminate]. simpl.
    apply truthy_str_true in E4.
    destruct (strip_prefix ";base64," r2) as [r3|] eqn:E5; [|discriminate].
    apply strip_prefix_Some in E5 as ->.
    destruct (truthy_str (chop_last "010" r3)) eqn:E6; [|discriminate].
    destruct (has_char "010" (chop_last "010" r3)) eqn:E7; [discriminate|].
    intros [= <- <-]. apply truthy_str_true in E6.
    rewrite has_char_app in Hm. apply orb_false_iff in Hm as [_ Hm].
    destruct (chop_last_tail "010" r3) as [E8|E8].
    + exists sub, "". rewrite string_app_nil_r, <- E8.
      split_and!; simpl; auto; congruence.
    + exists sub, (String "010" ""). rewrite E8 at 1.
      split_and!; simpl; auto.
  - intros (sub & tail & -> & -> & Hsub & Hsemi & Hb & Hnl & Htail).
    rewrite strip_prefix_app.
    assert (break_at ";" (("image/" +:+ sub) +:+ ";base64," +:+ b64 +:+ tail)
            = ("image/" +:+ sub, ";base64," +:+ b64 +:+ tail)) as ->.
    { apply break_at_spec. split_and!; [done| |right; by eexists].
      by rewrite has_char_app, Hsemi. }
    rewrite !strip_prefix_app.
    apply truthy_str_true in Hsub as ->. simpl.
    assert (chop_last "010" (b64 +:+ tail) = b64) as ->.
    { destruct Htail as [->| ->].
      - rewrite string_app_nil_r. by apply chop_last_no_char.
      - apply chop_last_snoc. }
    apply truthy_str_true in Hb as ->. by rewrite Hnl.
Qed.

(** The groups of a match are unique: a string has one reading at most. *)
Lemma image_data_url_unique (s mime1 b641 mime2 b642 : string) :
  image_data_url s mime1 b641 -> image_data_url s mime2 b642 ->
  mime1 = mime2 /\ b641 = b642.
Proof.
  intros H1%match_data_url_spec H2%match_data_url_spec.
  rewrite H1 in H2. by injection H2.
Qed.

(** What saving does, by cases on the pattern and on the decoder. *)
Lemma _save_data_url_to_file_spec `{StrLower} `{B64Decode}
    (data_url : string) (amb : Ambient) (files : gmap string bytes) :
  (exists mime b64 raw,
      image_data_url data_url mime b64 /\ b64decode b64 = Some raw
      /\ let fname := upload_fname amb (default "jpg" (ext_map !! str_lower mime)) in
         _save_data_url_to_file data_url amb files
         = (Some ("/uploads/" +:+ fname), <[fname := raw]> files))
  \/ ((forall mime b64, image_data_url data_url mime b64 -> b64decode b64 = None)
      /\ _save_data_url_to_file data_url amb files = (None, files)).
Proof.
  unfold _save_data_url_to_file.
  destruct (match_data_url data_url) as [[m b]|] eqn:Em.
  - apply match_data_url_spec in Em as Hshape.
    assert (truthy_str data_url = true) as ->.
    { destruct Hshape as (? & ? & -> & _). done. }
    simpl. destruct (b64decode b) as [raw|] eqn:Ed.
    + left. by exists m, b, raw.
    + right. split; [|done]. intros m' b' Hshape'.
      by destruct (image_data_url_unique _ _ _ _ _ Hshape Hshape') as [_ <-].
  - right. split.
    + intros m b Hshape%match_data_url_spec. congruence.
    + by destruct (truthy_str data_url).
Qed.

(** ** Passwords *)

Lemma _require_upload_pwd_ok (request : Request) :
  upload_authorized request -> _require_upload_pwd request = Return tt.
Proof.
  unfold upload_authorized, _require_upload_pwd, headers_get.
  by intros ->.
Qed.

Lemma _require_upload_pwd_403 (request : Request) :
  ~ upload_authorized request ->
  _require_upload_pwd request = Raise 403 "上传密码错误或未提供".
Proof.
  unfold upload_authorized, _require_upload_pwd, headers_get.
  destruct (headers request !! "X-Report-Pwd") as [pwd|]; simpl; [|done].
  intros Hne. destruct (String.eqb_spec pwd REPORT_UPLOAD_PWD); [|done].
  by subst.
Qed.

Lemma _require_admin_pwd_ok (request : Request) :
  admin_authorized request -> _require_admin_pwd request = Return tt.
Proof.
  unfold admin_authorized, _require_admin_pwd, headers_get.
  by intros ->.
Qed.

Lemma _require_admin_pwd_403 (request : Request) :
  ~ admin_authorized request ->
  _require_admin_pwd request = Raise 403 "管理密码错误或未提供".
Proof.
  unfold admin_authorized, _require_admin_pwd, headers_get.
  destruct (headers request !! "X-Report-Pwd") as [pwd|]; simpl; [|done].
  intros Hne. destruct (String.eqb_spec pwd REPORT_ADMIN_PWD); [|done].
  by subst.
Qed.

(** ** Row identifiers *)

Lemma foldr_max_ge (l : list Z) (k : Z) : k ∈ l -> k <= foldr Z.max 0 l.
Proof.
  induction l as [|a l IH]; simpl.
  - by intros ?%elem_of_nil.
  - intros [->|Hk%IH]%elem_of_cons; lia.
Qed.

(** Every rowid in use is below the next one. *)
Lemma next_rowid_gt {R : Type} (tbl : gmap Z R) (k : Z) (r : R) :
  tbl !! k = Some r -> k < next_rowid tbl.
Proof.
  intros Hk. unfold next_rowid.
  assert (k <= foldr Z.max 0 (fst <$> map_to_list tbl)); [|lia].
  apply foldr_max_ge, list_elem_of_fmap.
  exists (k, r). split; [done|]. by apply elem_of_map_to_list.
Qed.

Lemma next_rowid_fresh {R : Type} (tbl : gmap Z R) : tbl !! next_rowid tbl = None.
Proof.
  destruct (tbl !! next_rowid tbl) as [r|] eqn:E; [|done].
  apply next_rowid_gt in E. lia.
Qed.

(** ** Submitting a report *)

(** C5. A report submission whose [X-Report-Pwd] header is missing or is
    not the upload password raises the 403 error and leaves the whole store,
    tables and uploaded files alike, as it was. *)
Theorem submit_report_requires_pwd `{StrLower} `{B64Decode}
    (_mgc : list string) (amb : Ambient) (payload : ReportSubmit.t)
    (request : Request) (st : Store) :
  ~ upload_authorized request ->
  submit_report _mgc amb payload request st
  = (Raise 403 "上传密码错误或未提供", st).
Proof.
  intros Hpwd. unfold submit_report.
  by rewrite (_require_upload_pwd_403 request Hpwd).
Qed.

Lemma submit_report_requires_pwd_witness :
  let payload :=
    ReportSubmit.mk "hello" None None None None (Some "data:image/png;base64,aGk=") in
  submit_report ["bad"] amb0 payload (hdr "12") empty_store
  = (Raise 403 "上传密码错误或未提供", empty_store)
  /\ submit_report ["bad"] amb0 payload no_hdr empty_store
     = (Raise 403 "上传密码错误或未提供", empty_store).
Proof.
  split.
  - apply (submit_report_requires_pwd ["bad"] amb0 _ (hdr "12") empty_store).
    unfold upload_authorized. vm_compute. discriminate.
  - apply (submit_report_requires_pwd ["bad"] amb0 _ no_hdr empty_store).
    unfold upload_authorized. vm_compute. discriminate.
Defined.

(** C4, as stated, fails: a submission with banned text and no password
    does not get the [ok:false] response but the 403 error. *)
Lemma banned_report_without_pwd_raises :
  let payload := ReportSubmit.mk "so BAD" None None None None None in
  banned (ReportSubmit.text payload) ["bad"]
  /\ submit_report ["bad"] amb0 payload no_hdr empty_store
     = (Raise 403 "上传密码错误或未提供", empty_store)
  /\ ~ (exists r, (submit_report ["bad"] amb0 payload no_hdr empty_store).1 = Return r
                  /\ APIResponse.ok r = false).
Proof.
  split_and!.
  - apply (@contains_mgc_Some _ ascii_str_lower_laws). by vm_compute.
  - by vm_compute.
  - intros (r & Hr & _). vm_compute in Hr. discriminate.
Qed.

(** C4, amended. A report submission with banned text never changes the
    store.  With the upload password it is answered by the [ok:false]
    response; without it, by the 403 error. *)
Theorem submit_report_banned `{StrLowerLaws} `{B64Decode}
    (_mgc : list string) (amb : Ambient) (payload : ReportSubmit.t)
    (request : Request) (st : Store) :
  banned (ReportSubmit.text payload) _mgc ->
  (upload_authorized request ->
   submit_report _mgc amb payload request st
   = (Return (APIResponse.mk false None (Some "爆料文本含违禁词，请修改")), st))
  /\ (~ upload_authorized request ->
      submit_report _mgc amb payload request st
      = (Raise 403 "上传密码错误或未提供", st)).
Proof.
  intros Hbad%contains_mgc_Some. split; intros Hpwd; unfold submit_report.
  - by rewrite (_require_upload_pwd_ok request Hpwd), Hbad.
  - by rewrite (_require_upload_pwd_403 request Hpwd).
Qed.

Lemma submit_report_banned_witness :
  let payload := ReportSubmit.mk "so BAD" None None None None None in
  submit_report ["bad"] amb0 payload (hdr "123") empty_store
  = (Return (APIResponse.mk false None (Some "爆料文本含违禁词，请修改")), empty_store)
  /\ submit_report ["bad"] amb0 payload no_hdr empty_store
     = (Raise 403 "上传密码错误或未提供", empty_store).
Proof.
  assert (banned "so BAD" ["bad"]) as Hbad.
  { apply (@contains_mgc_Some _ ascii_str_lower_laws). by vm_compute. }
  split.
  - apply (@submit_report_banned ascii_StrLower ascii_str_lower_laws _
             ["bad"] amb0 (ReportSubmit.mk "so BAD" None None None None None)
             (hdr "123") empty_store Hbad).
    by vm_compute.
  - apply (@submit_report_banned ascii_StrLower ascii_str_lower_laws _
             ["bad"] amb0 (ReportSubmit.mk "so BAD" None None None None None)
             no_hdr empty_store Hbad).
    unfold upload_authorized. vm_compute. discriminate.
Defined.


(** The outcome when an integer of the row cannot be bound: the 500 error,
    no new row, and whatever [_save_data_url_to_file] wrote left behind. *)
Lemma submit_report_overflow `{StrLowerLaws} `{B64Decode}
    (_mgc : list string) (amb : Ambient) (payload : ReportSubmit.t)
    (request : Request) (st : Store) :
  upload_authorized request ->
  ~ banned (ReportSubmit.text payload) _mgc ->
  report_binds amb payload = false ->
  let saved :=
    _save_data_url_to_file (default "" (ReportSubmit.imgData payload)) amb (uploads st) in
  submit_report _mgc amb payload request st
  = (Raise 500 OverflowError, mkStore (scores st) (reports st) saved.2).
Proof.
  intros Hpwd Hok Hbinds. unfold submit_report.
  rewrite (_require_upload_pwd_ok request Hpwd), Hbinds.
  destruct (contains_mgc _ _) eqn:E; [by apply contains_mgc_Some in E|].
  destruct (ReportSubmit.imgData payload) as [[|c u]|]; simpl; try done.
  by destruct (_save_data_url_to_file _ _ _).
Qed.




(** The table of extensions, entry by entry. *)
Lemma ext_map_entries :
  ext_map !! "image/jpeg" = Some "jpg" /\ ext_map !! "image/jpg" = Some "jpg"
  /\ ext_map !! "image/png" = Some "png" /\ ext_map !! "image/webp" = Some "webp"
  /\ ext_map !! "image/gif" = Some "gif" /\ ext_map !! "image/bmp" = Some "bmp"
  /\ ext_map !! "image/tiff" = None.
Proof. by vm_compute. Qed.

(** ** Paging *)

Lemma StronglySorted_impl' {A : Type} (R1 R2 : A -> A -> Prop) (l : list A) :
  StronglySorted R1 l -> (forall a b, R1 a b -> R2 a b) -> StronglySorted R2 l.
Proof.
  intros Hl HR. induction Hl as [|x l Hl IH Hx]; constructor; [done|].
  eapply Forall_impl; [exact Hx | apply HR].
Qed.

Lemma StronglySorted_lookup {A : Type} (R : A -> A -> Prop) (l : list A)
    (i j : nat) (a b : A) :
  StronglySorted R l -> (i < j)%nat -> l !! i = Some a -> l !! j = Some b -> R a b.
Proof.
  intros Hl. revert i j. induction Hl as [|x l Hl IH Hx]; intros i j Hij Hi Hj.
  - by rewrite lookup_nil in Hi.
  - destruct j as [|j]; [lia|]. simpl in Hj. destruct i as [|i].
    + injection Hi as <-. rewrite Forall_forall in Hx.
      apply Hx. by eapply list_elem_of_lookup_2.
    + simpl in Hi. apply (IH i j); [lia | done | done].
Qed.

Lemma StronglySorted_take_drop {A : Type} (R : A -> A -> Prop) (l : list A) (n m : nat) :
  StronglySorted R l -> StronglySorted R (take n (drop m l)).
Proof.
  intros Hl. rewrite <- (take_drop m l) in Hl.
  apply StronglySorted_app_1_r in Hl.
  rewrite <- (take_drop n (drop m l)) in Hl.
  by apply StronglySorted_app_1_l in Hl.
Qed.

Lemma sql_limit_offset_nonneg {A : Type} (limit offset : Z) (l : list A) :
  0 <= limit ->
  sql_limit_offset limit offset l = take (Z.to_nat limit) (drop (Z.to_nat offset) l).
Proof.
  intros Hlimit. unfold sql_limit_offset.
  destruct (Z.ltb_spec limit 0); [lia | done].
Qed.

(** A page never has more than [limit] rows, and row [k] of the page is row
    [offset + k] of what is paged. *)
Lemma sql_limit_offset_is_page {A B : Type} (f : A -> B) (page limit : Z) (l : list A) :
  1 <= page -> 1 <= limit ->
  is_page page limit (f <$> l)
    (f <$> sql_limit_offset limit ((page - 1) * limit) l).
Proof.
  intros Hpage Hlimit. rewrite sql_limit_offset_nonneg by lia. split.
  - rewrite length_fmap, length_take. lia.
  - intros k Hk. rewrite !list_lookup_fmap, lookup_take_lt by lia.
    by rewrite lookup_drop.
Qed.

Lemma sql_limit_offset_subseteq {A : Type} (limit offset : Z) (l : list A) (x : A) :
  x ∈ sql_limit_offset limit offset l -> x ∈ l.
Proof.
  unfold sql_limit_offset. intros Hx.
  assert (x ∈ drop (Z.to_nat offset) l) as Hx'.
  { destruct (limit <? 0); [done|].
    eapply elem_of_sublist; [exact Hx | apply sublist_take]. }
  eapply elem_of_sublist; [exact Hx' | apply sublist_drop].
Qed.

Lemma clamp_page (page : Z) : clamped_page page (Z.max 1 page).
Proof. unfold clamped_page. lia. Qed.

Lemma clamp_limit (limit : Z) : clamped_limit limit (Z.max 1 (Z.min 50 limit)).
Proof. unfold clamped_limit. lia. Qed.

(** ** The two orders *)

(** Turn the boolean comparisons of an order test into arithmetic. *)
Ltac order_lia :=
  rewrite ?orb_true_iff, ?andb_true_iff, ?Z.ltb_lt, ?Z.eqb_eq, ?Z.leb_le; lia.

Lemma by_score_desc_created_desc_total (a b : Z * ScoreRow.t) :
  by_score_desc_created_desc a b = true \/ by_score_desc_created_desc b a = true.
Proof. unfold by_score_desc_created_desc. order_lia. Qed.

Lemma by_score_desc_created_desc_trans (a b c : Z * ScoreRow.t) :
  by_score_desc_created_desc a b = true -> by_score_desc_created_desc b c = true ->
  by_score_desc_created_desc a c = true.
Proof. unfold by_score_desc_created_desc. order_lia. Qed.

Lemma by_score_desc_created_desc_order (a b : Z * ScoreRow.t) :
  by_score_desc_created_desc a b = true ->
  score_item_order (score_item a) (score_item b).
Proof. unfold by_score_desc_created_desc, score_item_order; simpl. order_lia. Qed.

Lemma by_created_desc_total (a b : Z * ReportRow.t) :
  by_created_desc a b = true \/ by_created_desc b a = true.
Proof. unfold by_created_desc. order_lia. Qed.

Lemma by_created_desc_trans (a b c : Z * ReportRow.t) :
  by_created_desc a b = true -> by_created_desc b c = true ->
  by_created_desc a c = true.
Proof. unfold by_created_desc. order_lia. Qed.

(** The merge sort meets the contract of [ORDER BY]. *)
Lemma merge_sort_order_by_laws : @OrderByLaws merge_sort_OrderBy.
Proof.
  split; intros A le l.
  - apply merge_sort_Permutation.
  - intros Htotal Htrans.
    apply (@StronglySorted_merge_sort A (fun x y => le x y = true)).
    + intros x y z. apply Htrans.
    + intros x y. apply Htotal.
Qed.

(** ** Integers SQLite can bind *)

Lemma sqlite_int_spec (z : Z) :
  sqlite_int z = true <-> -9223372036854775808 <= z <= 9223372036854775807.
Proof.
  unfold sqlite_int. change (2 ^ 63) with 9223372036854775808.
  rewrite andb_true_iff, Z.leb_le, Z.ltb_lt. lia.
Qed.

Lemma sqlite_int_false (z : Z) :
  sqlite_int z = false <-> z < -9223372036854775808 \/ 9223372036854775807 < z.
Proof.
  rewrite <- not_true_iff_false, sqlite_int_spec. lia.
Qed.

(** A clamped limit can always be bound. *)
Lemma sqlite_int_limit (limit : Z) : sqlite_int (Z.max 1 (Z.min 50 limit)) = true.
Proof. apply sqlite_int_spec. lia. Qed.

(** ** The leaderboard *)

(** The leaderboard pages through [score_ranking], unless the offset cannot
    be bound. *)
Lemma leaderboard_unfold `{OrderBy} (page limit : Z) (st : Store) :
  leaderboard page limit st
  = if sqlite_int ((Z.max 1 page - 1) * Z.max 1 (Z.min 50 limit))
    then Return (APIResponse.mk true
                   (Some (DataScores
                            (score_item <$>
                               sql_limit_offset (Z.max 1 (Z.min 50 limit))
                                 ((Z.max 1 page - 1) * Z.max 1 (Z.min 50 limit))
                                 (score_ranking st))
                            (sql_count (scores st)) (Z.max 1 page)
                            (Z.max 1 (Z.min 50 limit))))
                   None)
    else Raise 500 OverflowError.
Proof. unfold leaderboard. by rewrite sqlite_int_limit. Qed.

Lemma score_item_is_of (r : Z * ScoreRow.t) : score_item_of r (score_item r).
Proof. by unfold score_item_of. Qed.

Lemma by_score_desc_created_desc_row_order (a b : Z * ScoreRow.t) :
  by_score_desc_created_desc a b = true -> score_row_order a b.
Proof. unfold by_score_desc_created_desc, score_row_order. order_lia. Qed.

(** A page is made of the rows at its offset. *)
Lemma sql_limit_offset_page_of {A B : Type} (f : A -> B) (made_of : A -> B -> Prop)
    (page limit : Z) (l : list A) :
  (forall r, made_of r (f r)) -> 1 <= page -> 1 <= limit ->
  page_of made_of page limit l (f <$> sql_limit_offset limit ((page - 1) * limit) l).
Proof.
  intros Hmade Hpage Hlimit.
  destruct (sql_limit_offset_is_page f page limit l Hpage Hlimit) as [Hlen Hlookup].
  split; [done|]. intros k Hk. rewrite (Hlookup k Hk), list_lookup_fmap.
  destruct (l !! _) as [r|]; simpl; [|done]. by exists (f r).
Qed.

Lemma clamped_page_eq (page page' : Z) : clamped_page page page' -> page' = Z.max 1 page.
Proof. unfold clamped_page. lia. Qed.

Lemma clamped_limit_eq (limit limit' : Z) :
  clamped_limit limit limit' -> limit' = Z.max 1 (Z.min 50 limit).
Proof. unfold clamped_limit. lia. Qed.

(** C6, as stated, fails: for a page so far out that its offset is no
    64-bit integer, the leaderboard answers with the 500 error, not with a
    page. *)
Lemma leaderboard_huge_page_raises :
  leaderboard page_too_far 1 three_scores = Raise 500 OverflowError.
Proof. rewrite leaderboard_unfold. reflexivity. Qed.

(** C6, amended. The leaderboard works with the page clamped to at least 1
    and the limit clamped into 1 to 50.  When the offset [(page-1)*limit]
    of the clamped values is a 64-bit integer, it answers with these
    values, with the number of rows of [scores] as [total], and with items
    that are the requested page of a ranking of all score rows by score
    descending, then creation time descending: at most [limit] of them,
    item [k] carrying the rowid and columns of row [(page-1)*limit + k] of
    the ranking; any item before another has a greater score, or the same
    score and a creation time at least as late.  When the offset is no
    64-bit integer, the answer is the 500 error. *)
Theorem leaderboard_page `{OrderByLaws} (page limit page' limit' : Z) (st : Store) :
  clamped_page page page' -> clamped_limit limit limit' ->
  (sqlite_int ((page' - 1) * limit') = true ->
   exists (ranking : list (Z * ScoreRow.t)) (items : list ScoreItem.t),
     leaderboard page limit st
     = Return (APIResponse.mk true
                 (Some (DataScores items (Z.of_nat (size (scores st))) page' limit'))
                 None)
     /\ ranking ≡ₚ map_to_list (scores st)
     /\ StronglySorted score_row_order ranking
     /\ page_of score_item_of page' limit' ranking items
     /\ (forall (i j : nat) (a b : ScoreItem.t),
            (i < j)%nat -> items !! i = Some a -> items !! j = Some b ->
            score_item_order a b))
  /\ (sqlite_int ((page' - 1) * limit') = false ->
      leaderboard page limit st = Raise 500 OverflowError).
Proof.
  intros ->%clamped_page_eq ->%clamped_limit_eq.
  rewrite leaderboard_unfold. split; intros ->; [|done].
  exists (score_ranking st). eexists. split_and!.
  - reflexivity.
  - apply order_by_Permutation.
  - eapply StronglySorted_impl'.
    + apply order_by_StronglySorted.
      * apply by_score_desc_created_desc_total.
      * apply by_score_desc_created_desc_trans.
    + apply by_score_desc_created_desc_row_order.
  - apply sql_limit_offset_page_of; [apply score_item_is_of | lia | lia].
  - intros i j a b Hij.
    rewrite sql_limit_offset_nonneg, fmap_take, fmap_drop by lia.
    apply StronglySorted_lookup; [|done].
    apply StronglySorted_take_drop.
    eapply StronglySorted_fmap.
    + apply by_score_desc_created_desc_order.
    + apply order_by_StronglySorted.
      * apply by_score_desc_created_desc_total.
      * apply by_score_desc_created_desc_trans.
Qed.

Lemma leaderboard_page_witness :
  exists (ranking : list (Z * ScoreRow.t)) (items : list ScoreItem.t),
    leaderboard 0 2 three_scores
    = Return (APIResponse.mk true
                (Some (DataScores items (Z.of_nat (size (scores three_scores))) 1 2))
                None)
    /\ ranking ≡ₚ map_to_list (scores three_scores)
    /\ StronglySorted score_row_order ranking
    /\ page_of score_item_of 1 2 ranking items
    /\ (forall (i j : nat) (a b : ScoreItem.t),
           (i < j)%nat -> items !! i = Some a -> items !! j = Some b ->
           score_item_order a b).
Proof.
  apply (@leaderboard_page merge_sort_OrderBy merge_sort_order_by_laws
           0 2 1 2 three_scores).
  - left. split; [lia | reflexivity].
  - right. left. split; [lia | reflexivity].
  - reflexivity.
Defined.

(** The first page of two, on the three example scores. *)
Example leaderboard_three_scores :
  leaderboard 0 2 three_scores
  = Return (APIResponse.mk true
              (Some (DataScores
                       [ScoreItem.mk 2 "Bob" "Owl" 250 7 1700000050;
                        ScoreItem.mk 3 "Cid" "Fox" 100 1 1700000100]
                       3 1 2))
              None).
Proof. by vm_compute. Qed.

(** ** The listing of reports *)

Lemma listed_reports_to_list (st : Store) :
  filter (fun r : Z * ReportRow.t => ReportRow.deleted r.2 = 0)
    (map_to_list (reports st))
  ≡ₚ map_to_list (listed_reports st).
Proof.
  apply NoDup_Permutation.
  - apply NoDup_filter, NoDup_map_to_list.
  - apply NoDup_map_to_list.
  - intros [id row]. unfold listed_reports.
    rewrite list_elem_of_filter, !elem_of_map_to_list, map_lookup_filter_Some.
    tauto.
Qed.

(** The listing pages through [report_listing], unless the offset cannot
    be bound. *)
Lemma list_reports_unfold `{OrderBy} (page limit : Z) (st : Store) :
  list_reports page limit st
  = if sqlite_int ((Z.max 1 page - 1) * Z.max 1 (Z.min 50 limit))
    then Return (APIResponse.mk true
                   (Some (DataReports
                            (report_item <$>
                               sql_limit_offset (Z.max 1 (Z.min 50 limit))
                                 ((Z.max 1 page - 1) * Z.max 1 (Z.min 50 limit))
                                 (report_listing st))
                            (sql_count (reports st)) (Z.max 1 page)
                            (Z.max 1 (Z.min 50 limit))))
                   None)
    else Raise 500 OverflowError.
Proof. unfold list_reports. by rewrite sqlite_int_limit. Qed.

(** What the listing does when its offset is a 64-bit integer: it pages,
    under the contract of the leaderboard, through the reports with
    [deleted = 0] arranged by creation time descending, and reports as
    [total] the number of rows of the whole table. *)
Lemma list_reports_page `{OrderByLaws} (page limit : Z) (st : Store) :
  sqlite_int ((Z.max 1 page - 1) * Z.max 1 (Z.min 50 limit)) = true ->
  exists (page' limit' : Z) (listing : list (Z * ReportRow.t))
         (items : list ReportItem.t),
    list_reports page limit st
    = Return (APIResponse.mk true
                (Some (DataReports items (Z.of_nat (size (reports st))) page' limit'))
                None)
    /\ clamped_page page page' /\ clamped_limit limit limit'
    /\ listing ≡ₚ map_to_list (listed_reports st)
    /\ StronglySorted (fun a b => ReportItem.createdAt a >= ReportItem.createdAt b)
         (report_item <$> listing)
    /\ is_page page' limit' (report_item <$> listing) items
    /\ (forall it, it ∈ items ->
          ReportItem.deleted it = 0
          /\ exists row, reports st !! ReportItem.id it = Some row
                         /\ ReportRow.deleted row = 0
                         /\ it = report_item (ReportItem.id it, row)).
Proof.
  intros Hoffset. rewrite list_reports_unfold, Hoffset. unfold report_listing.
  set (rows := filter (fun r : Z * ReportRow.t => ReportRow.deleted r.2 = 0)
                 (map_to_list (reports st))).
  exists (Z.max 1 page), (Z.max 1 (Z.min 50 limit)), (order_by by_created_desc rows).
  eexists. split_and!.
  - reflexivity.
  - apply clamp_page.
  - apply clamp_limit.
  - rewrite order_by_Permutation. apply listed_reports_to_list.
  - apply (StronglySorted_fmap _ (fun a b => by_created_desc a b = true)).
    + intros a b Hab. unfold by_created_desc in Hab. apply Z.leb_le in Hab.
      simpl. lia.
    + apply order_by_StronglySorted.
      * apply by_created_desc_total.
      * apply by_created_desc_trans.
  - apply sql_limit_offset_is_page; lia.
  - intros it ([id row] & -> & Hin%sql_limit_offset_subseteq)%list_elem_of_fmap.
    rewrite order_by_Permutation in Hin.
    apply list_elem_of_filter in Hin as [Hdel Hin%elem_of_map_to_list].
    simpl in *. rewrite Hdel. split; [done|]. exists row. by rewrite Hdel.
Qed.

(** Whatever page the listing returns, its items are stored reports with
    [deleted = 0]. *)
Lemma list_reports_Return_items `{OrderByLaws} (page limit : Z) (st : Store)
    (items : list ReportItem.t) (total page' limit' : Z) :
  list_reports page limit st
  = Return (APIResponse.mk true (Some (DataReports items total page' limit')) None) ->
  forall it, it ∈ items ->
    exists row, reports st !! ReportItem.id it = Some row /\ ReportRow.deleted row = 0.
Proof.
  intros Hlist it Hit.
  destruct (sqlite_int ((Z.max 1 page - 1) * Z.max 1 (Z.min 50 limit))) eqn:Hoffset.
  - destruct (list_reports_page page limit st Hoffset)
      as (p & l & listing & items' & Hlist' & _ & _ & _ & _ & _ & Hitems).
    rewrite Hlist' in Hlist. injection Hlist as <- _ _ _.
    destruct (Hitems it Hit) as (_ & row & Hrow & Hdel & _). by exists row.
  - rewrite list_reports_unfold, Hoffset in Hlist. discriminate.
Qed.

(** C2, on the input where it fails: with one soft-deleted report in the
    table, the listing has no rows to page through and returns no item, yet
    reports [total = 1]. *)
Theorem list_reports_total_counts_deleted `{OrderByLaws} :
  list_reports 1 20 one_deleted_report
  = Return (APIResponse.mk true (Some (DataReports [] 1 1 20)) None)
  /\ size (listed_reports one_deleted_report) = 0%nat.
Proof.
  split; [|by vm_compute].
  rewrite list_reports_unfold. unfold report_listing.
  assert (filter (fun r : Z * ReportRow.t => ReportRow.deleted r.2 = 0)
            (map_to_list (reports one_deleted_report)) = []) as -> by by vm_compute.
  assert (order_by by_created_desc [] = []) as ->.
  { apply Permutation_nil_r, order_by_Permutation. }
  by vm_compute.
Qed.

Lemma list_reports_total_counts_deleted_witness :
  list_reports 1 20 one_deleted_report
  = Return (APIResponse.mk true (Some (DataReports [] 1 1 20)) None)
  /\ size (listed_reports one_deleted_report) = 0%nat.
Proof.
  exact (@list_reports_total_counts_deleted merge_sort_OrderBy merge_sort_order_by_laws).
Defined.

(** ** Moderation *)

Lemma store_eta (st : Store) : mkStore (scores st) (reports st) (uploads st) = st.
Proof. by destruct st. Qed.

Lemma sql_update_twice {R : Type} (f : R -> R) (id : Z) (tbl : gmap Z R) :
  (forall r, f (f r) = f r) ->
  sql_update f id (sql_update f id tbl) = sql_update f id tbl.
Proof.
  intros Hf. unfold sql_update. apply map_eq. intros j.
  destruct (decide (id = j)) as [<-|Hne].
  - rewrite !lookup_alter_eq. destruct (tbl !! id) as [r|]; [|done].
    cbn. by rewrite Hf.
  - by rewrite !lookup_alter_ne.
Qed.

Lemma sql_update_no_row {R : Type} (f : R -> R) (id : Z) (tbl : gmap Z R) :
  tbl !! id = None -> sql_update f id tbl = tbl.
Proof. apply alter_id'. Qed.

(** C8. Audit and delete are idempotent: the second of two identical calls
    gives the response of the first and leaves the store as the first left
    it, whatever the store, the id, the audited value and the header. *)
Theorem audit_delete_idempotent (pa : ReportAudit.t) (pd : ReportDelete.t)
    (request : Request) (st : Store) :
  audit_report pa request (audit_report pa request st).2 = audit_report pa request st
  /\ delete_report pd request (delete_report pd request st).2
     = delete_report pd request st.
Proof.
  unfold audit_report, delete_report.
  destruct (_require_admin_pwd request); simpl; [|done].
  split.
  - destruct (sqlite_int (ReportAudit.id pa)) eqn:Hid; simpl; rewrite ?Hid; [|done].
    do 2 f_equal. by apply sql_update_twice.
  - destruct (sqlite_int (ReportDelete.id pd)) eqn:Hid; simpl; rewrite ?Hid; [|done].
    do 2 f_equal. by apply sql_update_twice.
Qed.

(** C10, as stated, fails: with the administrative password, an id that is
    no 64-bit integer, which no report can have, gets the 500 error and not
    [ok:true]. *)
Lemma audit_delete_unbindable_id_raises :
  admin_authorized (hdr "123")
  /\ reports one_report !! id_too_big = None
  /\ audit_report (ReportAudit.mk id_too_big true) (hdr "123") one_report
     = (Raise 500 OverflowError, one_report)
  /\ delete_report (ReportDelete.mk id_too_big) (hdr "123") one_report
     = (Raise 500 OverflowError, one_report).
Proof. by vm_compute. Qed.

(** C10, amended. With the administrative password, audit and delete
    answer [ok:true] for every id that is a 64-bit integer, and when no
    report has that id the store is left as it was; for an id that is no
    64-bit integer they answer with the 500 error and leave the store as it
    was. *)
Theorem audit_delete_any_id (pa : ReportAudit.t) (pd : ReportDelete.t)
    (request : Request) (st : Store) :
  admin_authorized request ->
  (sqlite_int (ReportAudit.id pa) = true ->
   exists st',
     audit_report pa request st = (Return (APIResponse.mk true None None), st')
     /\ (reports st !! ReportAudit.id pa = None -> st' = st))
  /\ (sqlite_int (ReportAudit.id pa) = false ->
      audit_report pa request st = (Raise 500 OverflowError, st))
  /\ (sqlite_int (ReportDelete.id pd) = true ->
      exists st',
        delete_report pd request st = (Return (APIResponse.mk true None None), st')
        /\ (reports st !! ReportDelete.id pd = None -> st' = st))
  /\ (sqlite_int (ReportDelete.id pd) = false ->
      delete_report pd request st = (Raise 500 OverflowError, st)).
Proof.
  intros Hpwd. apply _require_admin_pwd_ok in Hpwd.
  unfold audit_report, delete_report.
  rewrite Hpwd. split_and!; intros ->; try done.
  - eexists. split; [reflexivity|]. intros Hnone.
    rewrite sql_update_no_row by done. apply store_eta.
  - eexists. split; [reflexivity|]. intros Hnone.
    rewrite sql_update_no_row by done. apply store_eta.
Qed.

Lemma audit_delete_any_id_witness :
  (exists st',
      audit_report (ReportAudit.mk 7 true) (hdr "123") one_report
      = (Return (APIResponse.mk true None None), st')
      /\ (reports one_report !! 7 = None -> st' = one_report))
  /\ audit_report (ReportAudit.mk id_too_big true) (hdr "123") one_report
     = (Raise 500 OverflowError, one_report)
  /\ (exists st',
         delete_report (ReportDelete.mk 7) (hdr "123") one_report
         = (Return (APIResponse.mk true None None), st')
         /\ (reports one_report !! 7 = None -> st' = one_report))
  /\ delete_report (ReportDelete.mk id_too_big) (hdr "123") one_report
     = (Raise 500 OverflowError, one_report).
Proof.
  assert (admin_authorized (hdr "123")) as Hpwd by by vm_compute.
  pose proof (audit_delete_any_id (ReportAudit.mk 7 true) (ReportDelete.mk 7)
                (hdr "123") one_report Hpwd) as (Ha & _ & Hd & _).
  pose proof (audit_delete_any_id (ReportAudit.mk id_too_big true)
                (ReportDelete.mk id_too_big) (hdr "123") one_report Hpwd)
    as (_ & Ha' & _ & Hd').
  split_and!.
  - by apply Ha.
  - by apply Ha'.
  - by apply Hd.
  - by apply Hd'.
Defined.

(** On a row that exists, audit writes the flag and delete marks the row. *)
Example audit_then_delete_report5 :
  let st1 := (audit_report (ReportAudit.mk 5 true) (hdr "123") one_report).2 in
  let st2 := (delete_report (ReportDelete.mk 5) (hdr "123") st1).2 in
  reports st1 !! 5 = Some (set_audited 1 report5)
  /\ reports st2 !! 5 = Some (set_deleted 1 (set_audited 1 report5)).
Proof. by vm_compute. Qed.

(** ** Soft deletion *)

Lemma soft_deleted_same_reports (id : Z) (row : ReportRow.t) (st st' : Store) :
  reports st' = reports st -> soft_deleted id row st -> soft_deleted id row st'.
Proof. unfold soft_deleted. by intros ->. Qed.

Lemma soft_deleted_insert (id : Z) (row new : ReportRow.t) (st st' : Store) :
  reports st' = (sql_insert (reports st) new).2 ->
  soft_deleted id row st -> soft_deleted id row st'.
Proof.
  unfold soft_deleted, sql_insert. simpl. intros -> (row' & Hid & Hrow').
  exists row'. split; [|done].
  rewrite lookup_insert_ne; [done|].
  apply next_rowid_gt in Hid. lia.
Qed.

Lemma soft_deleted_update (f : ReportRow.t -> ReportRow.t)
    (id id' : Z) (row : ReportRow.t) (st st' : Store) :
  (forall r, ReportRow.deleted r = 1 -> ReportRow.deleted (f r) = 1) ->
  (forall r, ReportRow.text (f r) = ReportRow.text r
             /\ ReportRow.npc (f r) = ReportRow.npc r
             /\ ReportRow.x (f r) = ReportRow.x r
             /\ ReportRow.y (f r) = ReportRow.y r
             /\ ReportRow.created_at (f r) = ReportRow.created_at r
             /\ ReportRow.img_data (f r) = ReportRow.img_data r) ->
  reports st' = sql_update f id' (reports st) ->
  soft_deleted id row st -> soft_deleted id row st'.
Proof.
  unfold soft_deleted, sql_update.
  intros Hdel Hsame -> (row' & Hid & Hd & Hrow').
  destruct (decide (id' = id)) as [->|Hne].
  - exists (f row'). rewrite lookup_alter_eq, Hid.
    destruct (Hsame row') as (-> & -> & -> & -> & -> & ->). auto.
  - exists row'. by rewrite lookup_alter_ne.
Qed.

Section soft_delete.
Context `{StrLower} `{B64Decode} `{OrderBy}.

(** No endpoint brings a soft-deleted report back or alters its content. *)
Lemma soft_deleted_serve (_mgc : list string) (c : call)
    (id : Z) (row : ReportRow.t) (st : Store) :
  soft_deleted id row st -> soft_deleted id row (serve _mgc c st).2.
Proof.
  intros Hst. destruct c; simpl; try done.
  - unfold submit_score. destruct (_ || _); [done|].
    destruct (score_binds _ _); [|done].
    by apply (soft_deleted_same_reports id row st).
  - unfold submit_report.
    destruct (_require_upload_pwd request); [|done].
    destruct (contains_mgc _ _); [done|].
    destruct (if truthy_opt_str _ then _ else _) as [img_path files].
    destruct (report_binds _ _).
    + by eapply soft_deleted_insert.
    + by apply (soft_deleted_same_reports id row st).
  - unfold audit_report. destruct (_require_admin_pwd request); [|done].
    destruct (sqlite_int _); [|done].
    by eapply (soft_deleted_update (set_audited _)).
  - unfold delete_report. destruct (_require_admin_pwd request); [|done].
    destruct (sqlite_int _); [|done].
    by eapply (soft_deleted_update (set_deleted 1)).
Qed.

Lemma soft_deleted_serve_all (_mgc : list string) (cs : list call)
    (id : Z) (row : ReportRow.t) (st : Store) :
  soft_deleted id row st -> soft_deleted id row (serve_all _mgc cs st).
Proof.
  revert st. induction cs as [|c cs IH]; intros st Hst; [done|].
  apply IH. by apply soft_deleted_serve.
Qed.
End soft_delete.

Lemma delete_report_soft_deletes (id : Z) (row : ReportRow.t)
    (request : Request) (st : Store) :
  reports st !! id = Some row -> sqlite_int id = true -> admin_authorized request ->
  soft_deleted id row (delete_report (ReportDelete.mk id) request st).2.
Proof.
  intros Hid Hint Hpwd. unfold delete_report.
  rewrite (_require_admin_pwd_ok request Hpwd). simpl. rewrite Hint.
  unfold soft_deleted, sql_update; simpl.
  exists (set_deleted 1 row). by rewrite lookup_alter_eq, Hid.
Qed.

(** C7. Once an authorized delete has been applied to an existing report
    (whose rowid is a 64-bit integer, as every rowid of an SQLite table
    is), then after any further calls of any endpoints, with any arguments,
    the row is still stored under its id with [deleted = 1] and its content
    unchanged, and no page of [/api/reports/list] has an item with that id. *)
Theorem soft_delete_one_way `{StrLower} `{B64Decode} `{OrderByLaws}
    (_mgc : list string) (st : Store) (id : Z) (row : ReportRow.t)
    (request : Request) (cs : list call) :
  reports st !! id = Some row ->
  sqlite_int id = true ->
  admin_authorized request ->
  let st1 := (delete_report (ReportDelete.mk id) request st).2 in
  let st2 := serve_all _mgc cs st1 in
  soft_deleted id row st2
  /\ forall (page limit : Z) (items : list ReportItem.t) (total page' limit' : Z),
       list_reports page limit st2
       = Return (APIResponse.mk true (Some (DataReports items total page' limit')) None) ->
       forall it, it ∈ items -> ReportItem.id it <> id.
Proof.
  intros Hid Hint Hpwd st1 st2.
  assert (soft_deleted id row st2) as Hst2.
  { apply soft_deleted_serve_all. by apply delete_report_soft_deletes. }
  split; [done|].
  intros page limit items total page' limit' Hlist it Hit Heq.
  destruct (list_reports_Return_items page limit st2 _ _ _ _ Hlist it Hit)
    as (r & Hr & Hdel).
  destruct Hst2 as (row' & Hrow' & Hdel' & _).
  rewrite Heq, Hrow' in Hr. injection Hr as <-. lia.
Qed.

Lemma soft_delete_one_way_witness :
  let st1 := (delete_report (ReportDelete.mk 5) (hdr "123") one_report).2 in
  let st2 := serve_all ["bad"] calls5 st1 in
  soft_deleted 5 report5 st2
  /\ forall (page limit : Z) (items : list ReportItem.t) (total page' limit' : Z),
       list_reports page limit st2
       = Return (APIResponse.mk true (Some (DataReports items total page' limit')) None) ->
       forall it, it ∈ items -> ReportItem.id it <> 5.
Proof.
  apply (@soft_delete_one_way ascii_StrLower rfc4648_B64Decode
           merge_sort_OrderBy merge_sort_order_by_laws
           ["bad"] one_report 5 report5 (hdr "123") calls5); by vm_compute.
Defined.

(** After the delete and the calls of [calls5], the listing shows the new
    report only, and the table still holds both rows. *)
Example list_after_calls5 :
  let st1 := (delete_report (ReportDelete.mk 5) (hdr "123") one_report).2 in
  let st2 := serve_all ["bad"] calls5 st1 in
  list_reports 1 20 st2
  = Return (APIResponse.mk true
              (Some (DataReports
                       [ReportItem.mk 6 "an owl at the gate" None None None
                          1700000300 0 0 None]
                       2 1 20))
              None)
  /\ reports st2 !! 5 = Some (set_deleted 1 report5).
Proof. by vm_compute. Qed.

(** ** Creation timestamps *)

(** What [ts or int(time.time())] evaluates to. *)
Lemma or_int_spec (ts : option Z) (now : Z) :
  (forall t, ts = Some t -> t <> 0 -> or_int ts now = t)
  /\ (ts = None -> or_int ts now = now)
  /\ (ts = Some 0 -> or_int ts now = now).
Proof.
  unfold or_int. split_and!.
  - intros t -> Ht. by destruct (Z.eqb_spec t 0).
  - by intros ->.
  - by intros ->.
Qed.


(** C9, on the input where it fails: a score and a report submitted with
    the client timestamp [ts = 0] are accepted and stored with the server's
    time, not with the timestamp the client supplied. *)
Theorem submit_ts_zero_stores_server_time :
  let score := ScoreSubmit.mk "Ann" "Fox" 100 3 (Some 0) in
  let report := ReportSubmit.mk "hello" None None None (Some 0) None in
  let out1 := submit_score ["bad"] 1700000000 score empty_store in
  let out2 := submit_report ["bad"] amb0 report (hdr "123") empty_store in
  out1.1 = Return (APIResponse.mk true (Some (DataId 1)) None)
  /\ ScoreRow.created_at <$> scores out1.2 !! 1 = Some 1700000000
  /\ out2.1 = Return (APIResponse.mk true (Some (DataId 1)) None)
  /\ ReportRow.created_at <$> reports out2.2 !! 1 = Some (time_s amb0)
  /\ time_s amb0 <> 0.
Proof. by vm_compute. Qed.

(** A timestamp other than 0 is stored as supplied. *)
Example submit_ts_nonzero_is_kept :
  let score := ScoreSubmit.mk "Ann" "Fox" 100 3 (Some 1234) in
  let out := submit_score ["bad"] 1700000000 score empty_store in
  ScoreRow.created_at <$> scores out.2 !! 1 = Some 1234.
Proof. by vm_compute. Qed.

(** * Further properties of the handlers *)

(** ** The word list and the filter *)

(** X1. Every word [_load_mgc_words] returns is the stripped form of a line
    of the file and is not empty: blank lines never become words. *)
Theorem load_mgc_words_nonempty `{StrStrip} (file : option (list string)) (w : string) :
  w ∈ _load_mgc_words file ->
  w <> ""
  /\ exists lines line, file = Some lines /\ line ∈ lines /\ w = str_strip line.
Proof.
  destruct file as [lines|]; simpl; [|by intros ?%elem_of_nil].
  intros (line & -> & [Hline Hin]%list_elem_of_filter)%list_elem_of_fmap.
  split; [by apply truthy_str_true | by exists lines, line].
Qed.

Lemma load_mgc_words_nonempty_witness :
  "Ugly" <> ""
  /\ exists lines line,
       Some mgc_lines = Some lines /\ line ∈ lines /\ "Ugly" = str_strip line.
Proof.
  apply (load_mgc_words_nonempty (Some mgc_lines) "Ugly").
  vm_compute. right. left.
Defined.



Lemma contains_mgc_loop_app `{StrLower} (lower : string) (ws1 ws2 : list string) :
  contains_mgc_loop lower (ws1 ++ ws2)
  = contains_mgc_loop lower ws1 || contains_mgc_loop lower ws2.
Proof.
  induction ws1 as [|w ws1 IH]; simpl; [done|].
  destruct (truthy_str w); simpl; [|done].
  by destruct (str_in (str_lower w) lower).
Qed.

(** X3. Checking a text against two word lists put together is checking it
    against each: the filter answers true on [ws1 ++ ws2] exactly when it
    does on [ws1] or on [ws2]. *)
Theorem contains_mgc_app `{StrLower} (text : option string) (ws1 ws2 : list string) :
  contains_mgc text (ws1 ++ ws2) = contains_mgc text ws1 || contains_mgc text ws2.
Proof.
  unfold contains_mgc. destruct (truthy_opt_str text); simpl; [|done].
  apply contains_mgc_loop_app.
Qed.

(** X4. A non-empty word of the list is itself banned text, whatever
    [str.lower] does to it. *)
Theorem contains_mgc_word_itself `{StrLower} (w : string) (mgc_words : list string) :
  w ∈ mgc_words -> w <> "" -> contains_mgc (Some w) mgc_words = true.
Proof.
  intros Hin Hw. unfold contains_mgc; simpl.
  apply truthy_str_true in Hw as Hw'. rewrite Hw'; simpl.
  induction Hin as [w ws|w w' ws Hin IH]; simpl.
  - rewrite Hw'; simpl.
    assert (str_in (str_lower w) (str_lower w) = true) as ->; [|done].
    apply str_in_spec. exists "", "". simpl. by rewrite string_app_nil_r.
  - destruct (truthy_str w'); simpl; [|by apply IH].
    destruct (str_in (str_lower w') (str_lower w)); [done | by apply IH].
Qed.

Lemma contains_mgc_word_itself_witness :
  contains_mgc (Some "Ugly") (_load_mgc_words (Some mgc_lines)) = true.
Proof.
  apply (contains_mgc_word_itself "Ugly" (_load_mgc_words (Some mgc_lines))).
  - vm_compute. right. left.
  - discriminate.
Defined.

(** ** Submitting a score *)

(** X5. A score whose player name or character contains a banned word is
    answered with [ok:false] and the store is left as it was. *)
Theorem submit_score_banned `{StrLowerLaws} (_mgc : list string) (now : Z)
    (payload : ScoreSubmit.t) (st : Store) :
  banned (ScoreSubmit.playerName payload) _mgc
  \/ banned (ScoreSubmit.character payload) _mgc ->
  submit_score _mgc now payload st
  = (Return (APIResponse.mk false None (Some "输入内容含违禁词，请修改")), st).
Proof.
  unfold submit_score. intros [Hb|Hb]; apply contains_mgc_Some in Hb; rewrite Hb.
  - done.
  - by rewrite orb_true_r.
Qed.

Lemma submit_score_banned_witness :
  submit_score ["bad"] 1700000000 (ScoreSubmit.mk "Ann" "BadFox" 100 3 None) three_scores
  = (Return (APIResponse.mk false None (Some "输入内容含违禁词，请修改")), three_scores).
Proof.
  apply (@submit_score_banned ascii_StrLower ascii_str_lower_laws ["bad"] 1700000000
           (ScoreSubmit.mk "Ann" "BadFox" 100 3 None) three_scores).
  right. apply (@contains_mgc_Some _ ascii_str_lower_laws). by vm_compute.
Defined.



(** ** Pages of the leaderboard and of the listing *)

Lemma sql_limit_offset_sublist {A : Type} (limit offset : Z) (l : list A) :
  sql_limit_offset limit offset l `sublist_of` l.
Proof.
  unfold sql_limit_offset. etrans; [|apply (sublist_drop _ (Z.to_nat offset))].
  destruct (limit <? 0); [done | apply sublist_take].
Qed.

Lemma sql_limit_offset_length {A : Type} (limit offset : Z) (l : list A) :
  0 <= limit -> 0 <= offset ->
  Z.of_nat (length (sql_limit_offset limit offset l))
  = Z.max 0 (Z.min limit (Z.of_nat (length l) - offset)).
Proof.
  intros Hlimit Hoffset. rewrite sql_limit_offset_nonneg by done.
  rewrite length_take, length_drop. lia.
Qed.

(** Row [n] of what is paged is on page [n / limit + 1]. *)
Lemma sql_limit_offset_covers {A : Type} (limit : Z) (l : list A) (n : nat) (x : A) :
  1 <= limit -> l !! n = Some x ->
  x ∈ sql_limit_offset limit ((Z.of_nat n / limit + 1 - 1) * limit) l.
Proof.
  intros Hlimit Hn. rewrite sql_limit_offset_nonneg by lia.
  pose proof (Z.div_mod (Z.of_nat n) limit) as Hdm.
  pose proof (Z.mod_pos_bound (Z.of_nat n) limit) as Hmod.
  pose proof (Z.div_pos (Z.of_nat n) limit) as Hdiv.
  apply list_elem_of_lookup. exists (Z.to_nat (Z.of_nat n mod limit)).
  rewrite lookup_take_lt, lookup_drop by lia.
  replace (Z.to_nat ((Z.of_nat n / limit + 1 - 1) * limit)
           + Z.to_nat (Z.of_nat n mod limit))%nat with n by lia.
  done.
Qed.

Section pages.
Context `{OrderByLaws}.

Lemma score_ranking_Permutation (st : Store) :
  score_ranking st ≡ₚ map_to_list (scores st).
Proof. apply order_by_Permutation. Qed.


Lemma report_listing_elem_of (st : Store) (id : Z) (row : ReportRow.t) :
  (id, row) ∈ report_listing st
  <-> reports st !! id = Some row /\ ReportRow.deleted row = 0.
Proof.
  unfold report_listing.
  rewrite order_by_Permutation, list_elem_of_filter, elem_of_map_to_list. tauto.
Qed.

Lemma report_listing_NoDup (st : Store) : NoDup (fst <$> report_listing st).
Proof.
  unfold report_listing. rewrite order_by_Permutation.
  eapply sublist_NoDup; [apply (NoDup_fst_map_to_list (reports st))|].
  apply fmap_sublist, sublist_filter.
Qed.
End pages.

(** X7. When the offset of the clamped page is a 64-bit integer, the page
    of the leaderboard holds exactly the rows that are left after the pages
    before it, up to [limit] of them, so a page past the end is empty; and
    no score appears twice on a page. *)
Theorem leaderboard_page_size `{OrderByLaws} (page limit page' limit' : Z) (st : Store) :
  clamped_page page page' -> clamped_limit limit limit' ->
  sqlite_int ((page' - 1) * limit') = true ->
  exists items : list ScoreItem.t,
    leaderboard page limit st
    = Return (APIResponse.mk true
                (Some (DataScores items (Z.of_nat (size (scores st))) page' limit'))
                None)
    /\ Z.of_nat (length items)
       = Z.max 0 (Z.min limit' (Z.of_nat (size (scores st)) - (page' - 1) * limit'))
    /\ NoDup (ScoreItem.id <$> items).
Proof.
  intros ->%clamped_page_eq ->%clamped_limit_eq Hoffset.
  rewrite leaderboard_unfold, Hoffset.
  eexists. split; [reflexivity|]. split.
  - rewrite length_fmap, sql_limit_offset_length
      by (try apply Z.mul_nonneg_nonneg; lia).
    by rewrite (Permutation_length (score_ranking_Permutation st)), length_map_to_list.
  - rewrite <- list_fmap_compose.
    assert (NoDup (fst <$> score_ranking st)) as Hnodup.
    { rewrite score_ranking_Permutation. apply NoDup_fst_map_to_list. }
    eapply sublist_NoDup; [exact Hnodup|].
    apply fmap_sublist, sql_limit_offset_sublist.
Qed.

Lemma leaderboard_page_size_witness :
  exists items : list ScoreItem.t,
    leaderboard 2 2 three_scores
    = Return (APIResponse.mk true
                (Some (DataScores items (Z.of_nat (size (scores three_scores))) 2 2))
                None)
    /\ Z.of_nat (length items)
       = Z.max 0 (Z.min 2 (Z.of_nat (size (scores three_scores)) - (2 - 1) * 2))
    /\ NoDup (ScoreItem.id <$> items).
Proof.
  apply (@leaderboard_page_size merge_sort_OrderBy merge_sort_order_by_laws
           2 2 2 2 three_scores).
  - right. split; [lia | reflexivity].
  - right. left. split; [lia | reflexivity].
  - reflexivity.
Defined.

(** The offset of the page a row is on can be bound when the number of
    rows can. *)
Lemma covering_offset_binds (limit : Z) (n len : nat) :
  1 <= limit -> (n < len)%nat -> sqlite_int (Z.of_nat len) = true ->
  sqlite_int ((Z.max 1 (Z.of_nat n / limit + 1) - 1) * limit) = true.
Proof.
  intros Hlimit Hn Hlen%sqlite_int_spec. apply sqlite_int_spec.
  pose proof (Z.div_pos (Z.of_nat n) limit) as Hdiv.
  pose proof (Z.mul_div_le (Z.of_nat n) limit) as Hle.
  replace (Z.max 1 (Z.of_nat n / limit + 1) - 1) with (Z.of_nat n / limit) by lia.
  split; [apply Z.le_trans with 0; [lia | apply Z.mul_nonneg_nonneg; lia]|].
  rewrite Z.mul_comm. lia.
Qed.

(** X8. Every stored score is on some page of the leaderboard, whatever
    limit is asked for: none is skipped between pages.  (The number of
    rows is taken to be a 64-bit integer, as every count SQLite returns
    is.) *)
Theorem leaderboard_complete `{OrderByLaws} (limit : Z) (st : Store)
    (id : Z) (row : ScoreRow.t) :
  sqlite_int (sql_count (scores st)) = true ->
  scores st !! id = Some row ->
  exists (page : Z) (items : list ScoreItem.t) (total page' limit' : Z),
    1 <= page
    /\ leaderboard page limit st
       = Return (APIResponse.mk true (Some (DataScores items total page' limit')) None)
    /\ score_item (id, row) ∈ items.
Proof.
  intros Hcount Hid.
  assert ((id, row) ∈ score_ranking st) as [n Hn]%list_elem_of_lookup.
  { rewrite score_ranking_Permutation. by apply elem_of_map_to_list. }
  set (limit' := Z.max 1 (Z.min 50 limit)).
  pose proof (Z.div_pos (Z.of_nat n) limit') as Hdiv.
  exists (Z.of_nat n / limit' + 1). eexists _, _, _, _.
  split; [lia|]. rewrite leaderboard_unfold. fold limit'.
  rewrite (covering_offset_binds limit' n (length (score_ranking st))).
  - split; [reflexivity|].
    apply list_elem_of_fmap_2.
    replace (Z.max 1 (Z.of_nat n / limit' + 1)) with (Z.of_nat n / limit' + 1) by lia.
    apply sql_limit_offset_covers; [lia | exact Hn].
  - lia.
  - by eapply lookup_lt_Some.
  - by rewrite (Permutation_length (score_ranking_Permutation st)), length_map_to_list.
Qed.

Lemma leaderboard_complete_witness :
  exists (page : Z) (items : list ScoreItem.t) (total page' limit' : Z),
    1 <= page
    /\ leaderboard page 1 three_scores
       = Return (APIResponse.mk true (Some (DataScores items total page' limit')) None)
    /\ score_item (1, ScoreRow.mk "Ann" "Fox" 100 3 1700000000) ∈ items.
Proof.
  apply (@leaderboard_complete merge_sort_OrderBy merge_sort_order_by_laws
           1 three_scores 1 (ScoreRow.mk "Ann" "Fox" 100 3 1700000000));
    by vm_compute.
Defined.



Lemma report_item_is_of (r : Z * ReportRow.t) : report_item_of r (report_item r).
Proof.
  unfold report_item_of, report_item; simpl. split_and!; try done.
  - by destruct (Z.eqb_spec (ReportRow.audited r.2) 0).
  - by destruct (Z.eqb_spec (ReportRow.deleted r.2) 0).
Qed.

(** X10. When the offset of the clamped page is a 64-bit integer, the page
    of the listing has at most [limit] items, each carrying the rowid and
    all columns of a stored report with [deleted = 0], no report twice, in
    order of creation time descending; [total] is the number of rows of the
    table, deleted ones included. *)
Theorem list_reports_contract `{OrderByLaws} (page limit page' limit' : Z) (st : Store) :
  clamped_page page page' -> clamped_limit limit limit' ->
  sqlite_int ((page' - 1) * limit') = true ->
  exists items : list ReportItem.t,
    list_reports page limit st
    = Return (APIResponse.mk true
                (Some (DataReports items (Z.of_nat (size (reports st))) page' limit'))
                None)
    /\ Z.of_nat (length items) <= limit'
    /\ (forall it, it ∈ items ->
          exists row, reports st !! ReportItem.id it = Some row
                      /\ ReportRow.deleted row = 0
                      /\ report_item_of (ReportItem.id it, row) it)
    /\ NoDup (ReportItem.id <$> items)
    /\ (forall (i j : nat) (a b : ReportItem.t),
          (i < j)%nat -> items !! i = Some a -> items !! j = Some b ->
          ReportItem.createdAt a >= ReportItem.createdAt b).
Proof.
  intros ->%clamped_page_eq ->%clamped_limit_eq Hoffset.
  rewrite list_reports_unfold, Hoffset.
  set (limit' := Z.max 1 (Z.min 50 limit)).
  set (page' := Z.max 1 page).
  eexists. split; [reflexivity|]. split_and!.
  - rewrite length_fmap, sql_limit_offset_nonneg, length_take by lia. lia.
  - intros it ([id row] & -> & Hin)%list_elem_of_fmap.
    pose proof (elem_of_sublist _ _ _ Hin
                  (sql_limit_offset_sublist limit' ((page' - 1) * limit')
                     (report_listing st))) as Hin'.
    apply report_listing_elem_of in Hin' as [Hrow Hdel].
    exists row. split_and!; [done | done | apply (report_item_is_of (id, row))].
  - rewrite <- list_fmap_compose.
    eapply sublist_NoDup; [apply (report_listing_NoDup st)|].
    apply fmap_sublist, sql_limit_offset_sublist.
  - intros i j a b Hij.
    rewrite sql_limit_offset_nonneg, fmap_take, fmap_drop by lia.
    apply (StronglySorted_lookup
             (fun a b => ReportItem.createdAt a >= ReportItem.createdAt b));
      [|done].
    apply StronglySorted_take_drop.
    apply (StronglySorted_fmap _ (fun a b => by_created_desc a b = true)).
    + intros x y Hxy. unfold by_created_desc in Hxy. apply Z.leb_le in Hxy.
      simpl. lia.
    + apply order_by_StronglySorted.
      * apply by_created_desc_total.
      * apply by_created_desc_trans.
Qed.

Lemma list_reports_contract_witness :
  exists items : list ReportItem.t,
    list_reports 1 20 one_report
    = Return (APIResponse.mk true
                (Some (DataReports items (Z.of_nat (size (reports one_report))) 1 20))
                None)
    /\ Z.of_nat (length items) <= 20
    /\ (forall it, it ∈ items ->
          exists row, reports one_report !! ReportItem.id it = Some row
                      /\ ReportRow.deleted row = 0
                      /\ report_item_of (ReportItem.id it, row) it)
    /\ NoDup (ReportItem.id <$> items)
    /\ (forall (i j : nat) (a b : ReportItem.t),
          (i < j)%nat -> items !! i = Some a -> items !! j = Some b ->
          ReportItem.createdAt a >= ReportItem.createdAt b).
Proof.
  apply (@list_reports_contract merge_sort_OrderBy merge_sort_order_by_laws
           1 20 1 20 one_report).
  - right. split; [lia | reflexivity].
  - right. left. split; [lia | reflexivity].
  - reflexivity.
Defined.

(** A report with [deleted = 0] is on the page its place in the listing
    falls on. *)
Lemma list_reports_covers `{OrderByLaws} (limit : Z) (st : Store)
    (id : Z) (row : ReportRow.t) :
  sqlite_int (sql_count (reports st)) = true ->
  reports st !! id = Some row -> ReportRow.deleted row = 0 ->
  exists (page : Z) (items : list ReportItem.t) (total page' limit' : Z),
    1 <= page
    /\ list_reports page limit st
       = Return (APIResponse.mk true (Some (DataReports items total page' limit')) None)
    /\ report_item (id, row) ∈ items.
Proof.
  intros Hcount Hid Hdel.
  assert ((id, row) ∈ report_listing st) as [n Hn]%list_elem_of_lookup
    by by apply report_listing_elem_of.
  set (limit' := Z.max 1 (Z.min 50 limit)).
  pose proof (Z.div_pos (Z.of_nat n) limit') as Hdiv.
  exists (Z.of_nat n / limit' + 1). eexists _, _, _, _.
  split; [lia|]. rewrite list_reports_unfold. fold limit'.
  rewrite (covering_offset_binds limit' n (length (report_listing st))).
  - split; [reflexivity|].
    apply list_elem_of_fmap_2.
    replace (Z.max 1 (Z.of_nat n / limit' + 1)) with (Z.of_nat n / limit' + 1) by lia.
    apply sql_limit_offset_covers; [lia | exact Hn].
  - lia.
  - by eapply lookup_lt_Some.
  - apply sqlite_int_spec in Hcount. apply sqlite_int_spec. unfold sql_count in Hcount.
    assert (length (report_listing st) <= size (reports st))%nat; [|lia].
    unfold report_listing.
    rewrite (Permutation_length (order_by_Permutation _ _ _)), <- length_map_to_list.
    apply length_filter.
Qed.

(** X11. Every stored report that is not deleted is on some page of the
    listing, audited or not: the listing does not look at [audited].  (The
    number of rows is taken to be a 64-bit integer, as every count SQLite
    returns is.) *)
Theorem list_reports_complete `{OrderByLaws} (limit : Z) (st : Store)
    (id : Z) (row : ReportRow.t) :
  sqlite_int (sql_count (reports st)) = true ->
  reports st !! id = Some row -> ReportRow.deleted row = 0 ->
  exists (page : Z) (items : list ReportItem.t) (total page' limit' : Z)
         (it : ReportItem.t),
    1 <= page
    /\ list_reports page limit st
       = Return (APIResponse.mk true (Some (DataReports items total page' limit')) None)
    /\ it ∈ items
    /\ ReportItem.id it = id
    /\ ReportItem.text it = ReportRow.text row
    /\ ReportItem.audited it = ReportRow.audited row.
Proof.
  intros Hcount Hid Hdel.
  destruct (list_reports_covers limit st id row Hcount Hid Hdel)
    as (page & items & total & page' & limit' & Hpage & Hlist & Hin).
  exists page, items, total, page', limit', (report_item (id, row)).
  split_and!; try done.
  simpl. by destruct (Z.eqb_spec (ReportRow.audited row) 0).
Qed.

Lemma list_reports_complete_witness :
  exists (page : Z) (items : list ReportItem.t) (total page' limit' : Z)
         (it : ReportItem.t),
    1 <= page
    /\ list_reports page 20 one_report
       = Return (APIResponse.mk true (Some (DataReports items total page' limit')) None)
    /\ it ∈ items
    /\ ReportItem.id it = 5
    /\ ReportItem.text it = ReportRow.text report5
    /\ ReportItem.audited it = ReportRow.audited report5.
Proof.
  apply (@list_reports_complete merge_sort_OrderBy merge_sort_order_by_laws
           20 one_report 5 report5); by vm_compute.
Defined.



(** ** More on moderation *)

Lemma sql_update_absorb {R : Type} (f g : R -> R) (id : Z) (tbl : gmap Z R) :
  (forall r, f (g r) = f r) ->
  sql_update f id (sql_update g id tbl) = sql_update f id tbl.
Proof.
  intros Hfg. unfold sql_update. apply map_eq. intros j.
  destruct (decide (id = j)) as [<-|Hne].
  - rewrite !lookup_alter_eq. destruct (tbl !! id) as [r|]; [|done].
    cbn. by rewrite Hfg.
  - by rewrite !lookup_alter_ne.
Qed.

Lemma sql_update_comm {R : Type} (f g : R -> R) (i j : Z) (tbl : gmap Z R) :
  (forall r, f (g r) = g (f r)) ->
  sql_update f i (sql_update g j tbl) = sql_update g j (sql_update f i tbl).
Proof.
  intros Hfg. unfold sql_update. apply map_eq. intros k.
  destruct (decide (i = k)) as [<-|Hi], (decide (j = i)) as [->|Hj].
  - rewrite !lookup_alter_eq. destruct (tbl !! i) as [r|]; [|done].
    cbn. by rewrite Hfg.
  - by rewrite lookup_alter_eq, !(lookup_alter_ne _ _ j i), lookup_alter_eq.
  - by rewrite !lookup_alter_ne.
  - destruct (decide (j = k)) as [<-|Hjk].
    + by rewrite lookup_alter_ne, !lookup_alter_eq, lookup_alter_ne.
    + by rewrite !lookup_alter_ne.
Qed.

Lemma sql_update_size {R : Type} (f : R -> R) (id : Z) (tbl : gmap Z R) :
  size (sql_update f id tbl) = size tbl.
Proof.
  unfold sql_update. by rewrite <- !size_dom, dom_alter_L.
Qed.

(** X13. Audit and delete without the administrative password raise the
    403 error and leave the store as it was. *)
Theorem moderation_requires_pwd (pa : ReportAudit.t) (pd : ReportDelete.t)
    (request : Request) (st : Store) :
  ~ admin_authorized request ->
  audit_report pa request st = (Raise 403 "管理密码错误或未提供", st)
  /\ delete_report pd request st = (Raise 403 "管理密码错误或未提供", st).
Proof.
  intros Hpwd. unfold audit_report, delete_report.
  by rewrite (_require_admin_pwd_403 request Hpwd).
Qed.

Lemma moderation_requires_pwd_witness :
  audit_report (ReportAudit.mk 5 true) no_hdr one_report
  = (Raise 403 "管理密码错误或未提供", one_report)
  /\ delete_report (ReportDelete.mk 5) no_hdr one_report
     = (Raise 403 "管理密码错误或未提供", one_report).
Proof.
  apply (moderation_requires_pwd (ReportAudit.mk 5 true) (ReportDelete.mk 5)
           no_hdr one_report).
  unfold admin_authorized. vm_compute. discriminate.
Defined.

(** X14. An authorized audit of an existing report (whose rowid is a 64-bit
    integer, as every rowid of an SQLite table is) writes [audited] (1 for
    true, 0 for false) in that row and nothing else: the row keeps its
    [deleted] flag and its content, also when it is soft-deleted, and the
    other reports, the scores and the uploads are as before. *)
Theorem audit_report_effect (payload : ReportAudit.t) (request : Request)
    (st : Store) (row : ReportRow.t) :
  admin_authorized request ->
  sqlite_int (ReportAudit.id payload) = true ->
  reports st !! ReportAudit.id payload = Some row ->
  exists (row' : ReportRow.t) (st' : Store),
    audit_report payload request st = (Return (APIResponse.mk true None None), st')
    /\ reports st' !! ReportAudit.id payload = Some row'
    /\ ReportRow.audited row' = (if ReportAudit.audited payload then 1 else 0)
    /\ ReportRow.deleted row' = ReportRow.deleted row
    /\ same_content row row'
    /\ (forall k, k <> ReportAudit.id payload -> reports st' !! k = reports st !! k)
    /\ size (reports st') = size (reports st)
    /\ scores st' = scores st /\ uploads st' = uploads st.
Proof.
  intros Hpwd Hint Hrow. unfold audit_report.
  rewrite (_require_admin_pwd_ok request Hpwd), Hint.
  eexists _, _. split; [reflexivity|]. simpl. split_and!.
  - unfold sql_update. by rewrite lookup_alter_eq, Hrow.
  - done.
  - done.
  - by unfold same_content.
  - intros k Hk. unfold sql_update. by rewrite lookup_alter_ne.
  - apply sql_update_size.
  - done.
  - done.
Qed.

Lemma audit_report_effect_witness :
  exists (row' : ReportRow.t) (st' : Store),
    audit_report (ReportAudit.mk 5 true) (hdr "123") one_report
    = (Return (APIResponse.mk true None None), st')
    /\ reports st' !! 5 = Some row'
    /\ ReportRow.audited row' = 1
    /\ ReportRow.deleted row' = ReportRow.deleted report5
    /\ same_content report5 row'
    /\ (forall k, k <> 5 -> reports st' !! k = reports one_report !! k)
    /\ size (reports st') = size (reports one_report)
    /\ scores st' = scores one_report /\ uploads st' = uploads one_report.
Proof.
  apply (audit_report_effect (ReportAudit.mk 5 true) (hdr "123") one_report report5);
    by vm_compute.
Defined.

(** X15. An authorized delete of an existing report (whose rowid is a
    64-bit integer, as every rowid of an SQLite table is) sets
    [deleted = 1] in that row and nothing else: the row stays in the table
    with its [audited] flag and its content, its image path included, and
    the other reports, the scores and the uploaded files are as before. *)
Theorem delete_report_effect (payload : ReportDelete.t) (request : Request)
    (st : Store) (row : ReportRow.t) :
  admin_authorized request ->
  sqlite_int (ReportDelete.id payload) = true ->
  reports st !! ReportDelete.id payload = Some row ->
  exists (row' : ReportRow.t) (st' : Store),
    delete_report payload request st = (Return (APIResponse.mk true None None), st')
    /\ reports st' !! ReportDelete.id payload = Some row'
    /\ ReportRow.deleted row' = 1
    /\ ReportRow.audited row' = ReportRow.audited row
    /\ same_content row row'
    /\ (forall k, k <> ReportDelete.id payload -> reports st' !! k = reports st !! k)
    /\ size (reports st') = size (reports st)
    /\ scores st' = scores st /\ uploads st' = uploads st.
Proof.
  intros Hpwd Hint Hrow. unfold delete_report.
  rewrite (_require_admin_pwd_ok request Hpwd), Hint.
  eexists _, _. split; [reflexivity|]. simpl. split_and!.
  - unfold sql_update. by rewrite lookup_alter_eq, Hrow.
  - done.
  - done.
  - by unfold same_content.
  - intros k Hk. unfold sql_update. by rewrite lookup_alter_ne.
  - apply sql_update_size.
  - done.
  - done.
Qed.

Lemma delete_report_effect_witness :
  exists (row' : ReportRow.t) (st' : Store),
    delete_report (ReportDelete.mk 5) (hdr "123") one_report
    = (Return (APIResponse.mk true None None), st')
    /\ reports st' !! 5 = Some row'
    /\ ReportRow.deleted row' = 1
    /\ ReportRow.audited row' = ReportRow.audited report5
    /\ same_content report5 row'
    /\ (forall k, k <> 5 -> reports st' !! k = reports one_report !! k)
    /\ size (reports st') = size (reports one_report)
    /\ scores st' = scores one_report /\ uploads st' = uploads one_report.
Proof.
  apply (delete_report_effect (ReportDelete.mk 5) (hdr "123") one_report report5);
    by vm_compute.
Defined.

(** X16. Audit and delete commute: for any two ids, equal or not, and any
    two requests, the store after audit then delete is the store after
    delete then audit. *)
Theorem audit_delete_commute (pa : ReportAudit.t) (pd : ReportDelete.t)
    (ra rd : Request) (st : Store) :
  (delete_report pd rd (audit_report pa ra st).2).2
  = (audit_report pa ra (delete_report pd rd st).2).2.
Proof.
  unfold audit_report, delete_report.
  destruct (_require_admin_pwd ra), (_require_admin_pwd rd),
    (sqlite_int (ReportAudit.id pa)), (sqlite_int (ReportDelete.id pd));
    simpl; try done.
  f_equal. by apply sql_update_comm.
Qed.

(** X17. Of two audits of the same report, the later one decides: the
    store is as if only the second had been made. *)
Theorem audit_last_wins (id : Z) (v1 v2 : bool) (request : Request) (st : Store) :
  (audit_report (ReportAudit.mk id v2) request
     (audit_report (ReportAudit.mk id v1) request st).2).2
  = (audit_report (ReportAudit.mk id v2) request st).2.
Proof.
  unfold audit_report.
  destruct (_require_admin_pwd request); simpl; [|done].
  destruct (sqlite_int id); simpl; [|done].
  f_equal. by apply sql_update_absorb.
Qed.

(** ** What a call can do to the store *)

Lemma _require_upload_pwd_Return (request : Request) (u : unit) :
  _require_upload_pwd request = Return u -> upload_authorized request.
Proof.
  intros Hret. destruct (decide (upload_authorized request)) as [|Hno]; [done|].
  rewrite (_require_upload_pwd_403 request Hno) in Hret. discriminate.
Qed.

Lemma _require_admin_pwd_Return (request : Request) (u : unit) :
  _require_admin_pwd request = Return u -> admin_authorized request.
Proof.
  intros Hret. destruct (decide (admin_authorized request)) as [|Hno]; [done|].
  rewrite (_require_admin_pwd_403 request Hno) in Hret. discriminate.
Qed.

(** A score submission leaves the store alone or adds one row under the
    next rowid. *)
Lemma submit_score_cases `{StrLower} (_mgc : list string) (now : Z)
    (payload : ScoreSubmit.t) (st : Store) :
  (submit_score _mgc now payload st).2 = st
  \/ exists row,
       (submit_score _mgc now payload st).2
       = mkStore (<[next_rowid (scores st) := row]> (scores st)) (reports st) (uploads st).
Proof.
  unfold submit_score. destruct (_ || _); [by left|].
  destruct (score_binds now payload); [|by left]. right. by eexists.
Qed.

(** A report submission leaves the store alone or, with the password,
    writes at most one file and then either adds one row, not audited and
    not deleted, under the next rowid, which holds the path of the file if
    one was written, or adds no row. *)
Lemma submit_report_cases `{StrLower} `{B64Decode} (_mgc : list string) (amb : Ambient)
    (payload : ReportSubmit.t) (request : Request) (st : Store) :
  (submit_report _mgc amb payload request st).2 = st
  \/ (exists row files,
        (submit_report _mgc amb payload request st).2
        = mkStore (scores st) (<[next_rowid (reports st) := row]> (reports st)) files
        /\ upload_authorized request
        /\ ReportRow.audited row = 0 /\ ReportRow.deleted row = 0
        /\ ((ReportRow.img_data row = None /\ files = uploads st)
            \/ exists fname raw,
                 ReportRow.img_data row = Some ("/uploads/" +:+ fname)
                 /\ files = <[fname := raw]> (uploads st)))
  \/ (exists fname raw,
        (submit_report _mgc amb payload request st).2
        = mkStore (scores st) (reports st) (<[fname := raw]> (uploads st))
        /\ upload_authorized request).
Proof.
  unfold submit_report.
  destruct (_require_upload_pwd request) as [u|] eqn:Hpwd; [|by left].
  apply _require_upload_pwd_Return in Hpwd.
  destruct (contains_mgc _ _); [by left|].
  destruct (truthy_opt_str (ReportSubmit.imgData payload)).
  - destruct (_save_data_url_to_file_spec (default "" (ReportSubmit.imgData payload))
                amb (uploads st))
      as [(mime & b64 & raw & _ & _ & ->)|[_ ->]];
      destruct (report_binds amb payload); simpl.
    + right. left. eexists _, _. split_and!; try done. right. by eexists _, _.
    + right. right. by eexists _, _.
    + right. left. eexists _, _. split_and!; try done. by left.
    + left. apply store_eta.
  - destruct (report_binds amb payload); simpl.
    + right. left. eexists _, _. split_and!; try done. by left.
    + left. apply store_eta.
Qed.

(** Audit and delete leave the store alone or, with the password, update
    one column of the row with the given id. *)
Lemma audit_report_cases (payload : ReportAudit.t) (request : Request) (st : Store) :
  (audit_report payload request st).2 = st
  \/ (admin_authorized request
      /\ (audit_report payload request st).2
         = mkStore (scores st)
             (sql_update (set_audited (if ReportAudit.audited payload then 1 else 0))
                (ReportAudit.id payload) (reports st))
             (uploads st)).
Proof.
  unfold audit_report.
  destruct (_require_admin_pwd request) as [u|] eqn:Hpwd; [|by left].
  destruct (sqlite_int _); [|by left].
  right. split; [by eapply _require_admin_pwd_Return | done].
Qed.

Lemma delete_report_cases (payload : ReportDelete.t) (request : Request) (st : Store) :
  (delete_report payload request st).2 = st
  \/ (admin_authorized request
      /\ (delete_report payload request st).2
         = mkStore (scores st)
             (sql_update (set_deleted 1) (ReportDelete.id payload) (reports st))
             (uploads st)).
Proof.
  unfold delete_report.
  destruct (_require_admin_pwd request) as [u|] eqn:Hpwd; [|by left].
  destruct (sqlite_int _); [|by left].
  right. split; [by eapply _require_admin_pwd_Return | done].
Qed.

(** An invariant of the store that every call preserves holds after any
    sequence of calls. *)
Lemma serve_all_invariant `{StrLower} `{B64Decode} `{OrderBy}
    (P : Store -> Prop) (_mgc : list string) :
  (forall c st, P st -> P (serve _mgc c st).2) ->
  forall cs st, P st -> P (serve_all _mgc cs st).
Proof.
  intros Hstep cs. induction cs as [|c cs IH]; intros st Hst; [done|].
  apply IH. by apply Hstep.
Qed.

(** Split a goal about one call into the cases of what it did to the store. *)
Ltac serve_cases mgc c st :=
  destruct c as [now_c| |now_c payload_c|page_c limit_c|amb_c payload_c request_c
                |page_c limit_c|payload_c request_c|payload_c request_c]; simpl;
  [ | | destruct (submit_score_cases mgc now_c payload_c st) as [->|[row_c ->]]
      | | destruct (submit_report_cases mgc amb_c payload_c request_c st)
            as [->|[(row_c & files_c & -> & Hauth & Haud & Hdel & Himg)
                   |(fname_c & raw_c & -> & Hauth)]]
      | | destruct (audit_report_cases payload_c request_c st) as [->|[Hauth ->]]
      | destruct (delete_report_cases payload_c request_c st) as [->|[Hauth ->]] ];
  simpl.

Lemma same_content_refl (row : ReportRow.t) : same_content row row.
Proof. by unfold same_content. Qed.

Lemma same_content_update (f : ReportRow.t -> ReportRow.t) (row row' : ReportRow.t) :
  (forall r, same_content r (f r)) -> same_content row row' -> same_content row (f row').
Proof.
  unfold same_content. intros Hf (? & ? & ? & ? & ? & ?).
  destruct (Hf row') as (? & ? & ? & ? & ? & ?). split_and!; congruence.
Qed.

Section sequences.
Context `{StrLower} `{B64Decode} `{OrderBy}.

(** X18. No sequence of calls removes a report or changes its text, NPC,
    coordinates, creation time or image path: only the two moderation
    flags of a stored report can ever change. *)
Theorem reports_content_immutable (_mgc : list string) (cs : list call)
    (st : Store) (id : Z) (row : ReportRow.t) :
  reports st !! id = Some row ->
  exists row', reports (serve_all _mgc cs st) !! id = Some row'
               /\ same_content row row'.
Proof.
  intros Hrow.
  apply (serve_all_invariant
           (fun st => exists row', reports st !! id = Some row' /\ same_content row row')).
  - clear st Hrow. intros c st (row' & Hrow' & Hsame).
    serve_cases _mgc c st; try by exists row'.
    + exists row'. split; [|done]. rewrite lookup_insert_ne; [done|].
      apply next_rowid_gt in Hrow'. lia.
    + unfold sql_update. destruct (decide (ReportAudit.id payload_c = id)) as [->|Hne].
      * eexists. rewrite lookup_alter_eq, Hrow'. split; [done|].
        by apply same_content_update.
      * exists row'. by rewrite lookup_alter_ne.
    + unfold sql_update. destruct (decide (ReportDelete.id payload_c = id)) as [->|Hne].
      * eexists. rewrite lookup_alter_eq, Hrow'. split; [done|].
        by apply same_content_update.
      * exists row'. by rewrite lookup_alter_ne.
  - exists row. split; [done | apply same_content_refl].
Qed.

(** X19. A stored score never changes and is never removed, whatever calls
    follow. *)
Theorem scores_immutable (_mgc : list string) (cs : list call)
    (st : Store) (id : Z) (row : ScoreRow.t) :
  scores st !! id = Some row ->
  scores (serve_all _mgc cs st) !! id = Some row.
Proof.
  apply (serve_all_invariant (fun st => scores st !! id = Some row)).
  intros c st' Hrow. serve_cases _mgc c st'; try done.
  rewrite lookup_insert_ne; [done|]. apply next_rowid_gt in Hrow. lia.
Qed.

(** X20. No call removes an uploaded file: a name present in the uploads
    directory stays present, whatever calls follow, deletes of the report
    that refers to it included. *)
Theorem uploads_never_removed (_mgc : list string) (cs : list call)
    (st : Store) (fname : string) :
  is_Some (uploads st !! fname) ->
  is_Some (uploads (serve_all _mgc cs st) !! fname).
Proof.
  apply (serve_all_invariant (fun st => is_Some (uploads st !! fname))).
  intros c st' Hfile. serve_cases _mgc c st'; try done.
  - destruct Himg as [[_ ->]|(fname' & raw & _ & ->)]; [done|].
    rewrite lookup_insert_is_Some. destruct (decide (fname' = fname)); auto.
  - rewrite lookup_insert_is_Some. destruct (decide (fname_c = fname)); auto.
Qed.

Lemma serve_without_password (_mgc : list string) (c : call) (st : Store) :
  ~ carries_password c ->
  reports (serve _mgc c st).2 = reports st /\ uploads (serve _mgc c st).2 = uploads st.
Proof.
  intros Hno. serve_cases _mgc c st; try done; by destruct Hno.
Qed.

(** X21. Calls that do not carry the password of their endpoint cannot
    change the reports or the uploaded files, however many are made. *)
Theorem no_password_no_change (_mgc : list string) (cs : list call) (st : Store) :
  Forall (fun c => ~ carries_password c) cs ->
  reports (serve_all _mgc cs st) = reports st
  /\ uploads (serve_all _mgc cs st) = uploads st.
Proof.
  intros Hcs. revert st. induction Hcs as [|c cs Hc _ IH]; intros st; [done|].
  simpl. destruct (IH (serve _mgc c st).2) as [-> ->].
  by apply serve_without_password.
Qed.
End sequences.

Lemma reports_content_immutable_witness :
  exists row',
    reports (serve_all ["bad"] calls5 one_report) !! 5 = Some row'
    /\ same_content report5 row'.
Proof.
  apply (reports_content_immutable ["bad"] calls5 one_report 5 report5).
  by vm_compute.
Defined.

Lemma scores_immutable_witness :
  scores (serve_all ["bad"] calls5 three_scores) !! 2
  = Some (ScoreRow.mk "Bob" "Owl" 250 7 1700000050).
Proof.
  apply (scores_immutable ["bad"] calls5 three_scores 2
           (ScoreRow.mk "Bob" "Owl" 250 7 1700000050)).
  by vm_compute.
Defined.

Lemma uploads_never_removed_witness :
  is_Some (uploads (serve_all ["bad"] calls_upload_delete one_image_report)
             !! "1700000000123_0a1b2c3d.png").
Proof.
  apply (uploads_never_removed ["bad"] calls_upload_delete one_image_report
           "1700000000123_0a1b2c3d.png").
  vm_compute. by eexists.
Defined.

Lemma no_password_no_change_witness :
  reports (serve_all ["bad"] calls_no_pwd one_report) = reports one_report
  /\ uploads (serve_all ["bad"] calls_no_pwd one_report) = uploads one_report.
Proof.
  apply (no_password_no_change ["bad"] calls_no_pwd one_report).
  unfold calls_no_pwd. repeat constructor; simpl;
    unfold upload_authorized, admin_authorized; vm_compute; try discriminate; tauto.
Defined.

(** ** Invariants of the store *)

Lemma foldr_max_le (l : list Z) (n : Z) :
  0 <= n -> (forall k, k ∈ l -> k <= n) -> foldr Z.max 0 l <= n.
Proof.
  intros Hn. induction l as [|a l IH]; intros Hl; simpl; [done|].
  apply Z.max_lub.
  - apply Hl. by left.
  - apply IH. intros k Hk. apply Hl. by right.
Qed.

Lemma foldr_max_nonneg (l : list Z) : 0 <= foldr Z.max 0 l.
Proof. induction l as [|a l IH]; simpl; lia. Qed.

(** In a table with rowids 1 to n, the next rowid is n + 1. *)
Lemma rowids_contiguous_next {R : Type} (tbl : gmap Z R) :
  rowids_contiguous tbl -> next_rowid tbl = Z.of_nat (size tbl) + 1.
Proof.
  intros Htbl.
  assert (next_rowid tbl <= Z.of_nat (size tbl) + 1) as Hle.
  { unfold next_rowid.
    assert (foldr Z.max 0 (fst <$> map_to_list tbl) <= Z.of_nat (size tbl)); [|lia].
    apply foldr_max_le; [lia|].
    intros k ([k' r] & -> & Hin%elem_of_map_to_list)%list_elem_of_fmap. simpl.
    assert (is_Some (tbl !! k')) as Hk%Htbl by by eexists. lia. }
  assert (Z.of_nat (size tbl) < next_rowid tbl); [|lia].
  destruct (size tbl) as [|n] eqn:Hsize.
  - unfold next_rowid.
    pose proof (foldr_max_nonneg (fst <$> map_to_list tbl)). lia.
  - assert (is_Some (tbl !! Z.of_nat (S n))) as [r Hr].
    { apply Htbl. rewrite Hsize. lia. }
    by apply next_rowid_gt in Hr.
Qed.

Lemma rowids_contiguous_insert {R : Type} (tbl : gmap Z R) (r : R) :
  rowids_contiguous tbl -> rowids_contiguous (<[next_rowid tbl := r]> tbl).
Proof.
  intros Htbl k.
  rewrite lookup_insert_is_Some, map_size_insert_None by apply next_rowid_fresh.
  rewrite (rowids_contiguous_next tbl Htbl), (Htbl k). lia.
Qed.

Lemma rowids_contiguous_update {R : Type} (f : R -> R) (id : Z) (tbl : gmap Z R) :
  rowids_contiguous tbl -> rowids_contiguous (sql_update f id tbl).
Proof.
  intros Htbl k. rewrite sql_update_size, <- (Htbl k). unfold sql_update.
  rewrite <- !not_eq_None_Some, lookup_alter_None. done.
Qed.

Lemma lookup_sql_update_Some {R : Type} (f : R -> R) (id k : Z) (tbl : gmap Z R) (r' : R) :
  sql_update f id tbl !! k = Some r' ->
  tbl !! k = Some r' \/ exists r, tbl !! k = Some r /\ r' = f r.
Proof.
  unfold sql_update. destruct (decide (id = k)) as [->|Hne].
  - rewrite lookup_alter_eq. intros (r & Hr & ->)%fmap_Some. right. by exists r.
  - rewrite lookup_alter_ne by done. by left.
Qed.

Section invariants.
Context `{StrLower} `{B64Decode} `{OrderBy}.

(** X22. If every image path stored in a report names an uploaded file,
    this remains so after any sequence of calls: a report never refers to
    an image that is not there. *)
Theorem image_paths_resolve_invariant (_mgc : list string) (cs : list call) (st : Store) :
  image_paths_resolve st -> image_paths_resolve (serve_all _mgc cs st).
Proof.
  apply (serve_all_invariant image_paths_resolve).
  intros c st' Hst'. serve_cases _mgc c st'; try done.
  - intros id row path. simpl. intros Hrow Hpath.
    destruct (decide (next_rowid (reports st') = id)) as [<-|Hne].
    + rewrite lookup_insert_eq in Hrow. injection Hrow as <-.
      destruct Himg as [[Hnone _]|(fname & raw & Hsome & ->)]; [congruence|].
      rewrite Hsome in Hpath. injection Hpath as <-.
      exists fname. split; [done|]. rewrite lookup_insert_eq. by eexists.
    + rewrite lookup_insert_ne in Hrow by done.
      destruct (Hst' id row path Hrow Hpath) as (fname & -> & Hfile).
      exists fname. split; [done|].
      destruct Himg as [[_ ->]|(fname' & raw & _ & ->)]; [done|].
      rewrite lookup_insert_is_Some. destruct (decide (fname' = fname)); auto.
  - intros id row path. simpl. intros Hrow Hpath.
    destruct (Hst' id row path Hrow Hpath) as (fname & -> & Hfile).
    exists fname. split; [done|].
    rewrite lookup_insert_is_Some. destruct (decide (fname_c = fname)); auto.
  - intros id row path. simpl.
    intros [Hrow|(r & Hrow & ->)]%lookup_sql_update_Some Hpath;
      by apply (Hst' id _ path Hrow).
  - intros id row path. simpl.
    intros [Hrow|(r & Hrow & ->)]%lookup_sql_update_Some Hpath;
      by apply (Hst' id _ path Hrow).
Qed.

(** X23. If both moderation flags of every report are 0 or 1, this remains
    so after any sequence of calls. *)
Theorem flags_boolean_invariant (_mgc : list string) (cs : list call) (st : Store) :
  flags_boolean st -> flags_boolean (serve_all _mgc cs st).
Proof.
  apply (serve_all_invariant flags_boolean).
  intros c st' Hst'. serve_cases _mgc c st'; try done.
  - intros id row. simpl. intros Hrow.
    destruct (decide (next_rowid (reports st') = id)) as [<-|Hne].
    + rewrite lookup_insert_eq in Hrow. injection Hrow as <-. auto.
    + rewrite lookup_insert_ne in Hrow by done. by apply (Hst' id).
  - intros id row. simpl.
    intros [Hrow|(r & Hrow & ->)]%lookup_sql_update_Some; [by apply (Hst' id)|].
    destruct (Hst' id r Hrow) as [_ Hdel']. simpl.
    split; [|done]. destruct (ReportAudit.audited payload_c); auto.
  - intros id row. simpl.
    intros [Hrow|(r & Hrow & ->)]%lookup_sql_update_Some; [by apply (Hst' id)|].
    destruct (Hst' id r Hrow) as [Haud' _]. simpl. auto.
Qed.

(** X24. If the rowids of each table are 1 up to the number of its rows,
    this remains so after any sequence of calls: rowids are handed out in
    order, without gaps, and are never reused. *)
Theorem rowids_contiguous_invariant (_mgc : list string) (cs : list call) (st : Store) :
  rowids_contiguous (scores st) /\ rowids_contiguous (reports st) ->
  rowids_contiguous (scores (serve_all _mgc cs st))
  /\ rowids_contiguous (reports (serve_all _mgc cs st)).
Proof.
  apply (serve_all_invariant
           (fun st => rowids_contiguous (scores st) /\ rowids_contiguous (reports st))).
  intros c st' [Hs Hr]. serve_cases _mgc c st'; try done.
  - split; [by apply rowids_contiguous_insert | done].
  - split; [done | by apply rowids_contiguous_insert].
  - split; [done | by apply rowids_contiguous_update].
  - split; [done | by apply rowids_contiguous_update].
Qed.
End invariants.

Lemma image_paths_resolve_invariant_witness :
  image_paths_resolve (serve_all ["bad"] calls_upload_delete one_image_report).
Proof.
  apply (image_paths_resolve_invariant ["bad"] calls_upload_delete one_image_report).
  intros id row path Hrow Hpath.
  destruct (decide (id = 1)) as [->|Hne].
  - vm_compute in Hrow. injection Hrow as <-. vm_compute in Hpath.
    injection Hpath as <-. exists "1700000000123_0a1b2c3d.png".
    split; [reflexivity|]. vm_compute. by eexists.
  - unfold one_image_report in Hrow. simpl in Hrow.
    rewrite lookup_singleton_ne in Hrow by done. discriminate.
Defined.

Lemma flags_boolean_invariant_witness :
  flags_boolean (serve_all ["bad"] calls5 one_report).
Proof.
  apply (flags_boolean_invariant ["bad"] calls5 one_report).
  intros id row Hrow.
  destruct (decide (id = 5)) as [->|Hne].
  - vm_compute in Hrow. injection Hrow as <-. simpl. auto.
  - unfold one_report in Hrow. simpl in Hrow.
    rewrite lookup_singleton_ne in Hrow by done. discriminate.
Defined.

Lemma rowids_contiguous_invariant_witness :
  rowids_contiguous (scores (serve_all ["bad"] calls_upload_delete empty_store))
  /\ rowids_contiguous (reports (serve_all ["bad"] calls_upload_delete empty_store)).
Proof.
  apply (rowids_contiguous_invariant ["bad"] calls_upload_delete empty_store).
  split; intros k; simpl; rewrite lookup_empty, map_size_empty;
    (split; [by intros [? ?] | simpl; lia]).
Defined.

(** ** More on saving an image *)

Lemma ext_map_range (mime ext : string) :
  ext_map !! mime = Some ext -> ext ∈ upload_extensions.
Proof.
  unfold ext_map. intros Hin%elem_of_list_to_map_2.
  unfold upload_extensions.
  repeat (apply elem_of_cons in Hin as [[= _ <-]|Hin]; [set_solver|]).
  by apply elem_of_nil in Hin.
Qed.

(** X25. When [_save_data_url_to_file] returns a path, the path is
    [/uploads/<ms>_<uuid8>.<ext>] with an extension among jpg, png, webp,
    gif and bmp, the file of that name holds the decoded payload of the
    data URL, and every other file is as it was.  When it returns no path,
    no file has changed. *)
Theorem save_data_url_to_file_result `{StrLower} `{B64Decode}
    (data_url : string) (amb : Ambient) (files files' : gmap string bytes)
    (path : option string) :
  _save_data_url_to_file data_url amb files = (path, files') ->
  match path with
  | None => files' = files
  | Some p =>
      exists (ext : string) (raw : bytes),
        ext ∈ upload_extensions
        /\ p = "/uploads/" +:+ upload_fname amb ext
        /\ files' !! upload_fname amb ext = Some raw
        /\ (exists mime b64, image_data_url data_url mime b64 /\ b64decode b64 = Some raw)
        /\ forall other, other <> upload_fname amb ext -> files' !! other = files !! other
  end.
Proof.
  destruct (_save_data_url_to_file_spec data_url amb files)
    as [(mime & b64 & raw & Hshape & Hdec & ->)|[_ ->]].
  - intros [= <- <-].
    exists (default "jpg" (ext_map !! str_lower mime)), raw. split_and!.
    + destruct (ext_map !! str_lower mime) as [ext|] eqn:Hext; simpl.
      * by eapply ext_map_range.
      * unfold upload_extensions. set_solver.
    + done.
    + apply lookup_insert_eq.
    + by exists mime, b64.
    + intros other Hother. by rewrite lookup_insert_ne.
  - by intros [= <- <-].
Qed.

Lemma save_data_url_to_file_result_witness :
  exists (ext : string) (raw : bytes),
    ext ∈ upload_extensions
    /\ "/uploads/1700000000123_0a1b2c3d.gif" = "/uploads/" +:+ upload_fname amb0 ext
    /\ <[ "1700000000123_0a1b2c3d.gif" := [x68; x69] ]> (uploads one_image_report)
         !! upload_fname amb0 ext = Some raw
    /\ (exists mime b64,
           image_data_url "data:image/GIF;base64,aGk=" mime b64
           /\ b64decode b64 = Some raw)
    /\ forall other, other <> upload_fname amb0 ext ->
         <[ "1700000000123_0a1b2c3d.gif" := [x68; x69] ]> (uploads one_image_report)
           !! other = uploads one_image_report !! other.
Proof.
  apply (@save_data_url_to_file_result ascii_StrLower rfc4648_B64Decode
           "data:image/GIF;base64,aGk=" amb0 (uploads one_image_report)
           (<[ "1700000000123_0a1b2c3d.gif" := [x68; x69] ]> (uploads one_image_report))
           (Some "/uploads/1700000000123_0a1b2c3d.gif")).
  reflexivity.
Defined.

(** X26. A string that does not begin with [data:image/], in exactly these
    lowercase letters, is never saved: no path is returned and no file is
    written, whatever follows and whatever the decoder would make of it. *)
Theorem save_data_url_to_file_needs_prefix `{StrLower} `{B64Decode}
    (data_url : string) (amb : Ambient) (files : gmap string bytes) :
  strip_prefix "data:image/" data_url = None ->
  _save_data_url_to_file data_url amb files = (None, files).
Proof.
  intros Hprefix.
  destruct (_save_data_url_to_file_spec data_url amb files)
    as [(mime & b64 & raw & Hshape & _)|[_ ->]]; [|done].
  destruct Hshape as (sub & tail & -> & -> & _).
  change ("data:" +:+ ("image/" +:+ sub) +:+ ";base64," +:+ b64 +:+ tail)
    with ("data:image/" +:+ sub +:+ ";base64," +:+ b64 +:+ tail) in Hprefix.
  by rewrite strip_prefix_app in Hprefix.
Qed.

Lemma save_data_url_to_file_needs_prefix_witness :
  _save_data_url_to_file "data:IMAGE/PNG;base64,aGk=" amb0 (uploads one_image_report)
  = (None, uploads one_image_report).
Proof.
  apply (@save_data_url_to_file_needs_prefix ascii_StrLower rfc4648_B64Decode
           "data:IMAGE/PNG;base64,aGk=" amb0 (uploads one_image_report)).
  reflexivity.
Defined.

(** ** Integers SQLite cannot bind *)

(** X27. When an authorized report with acceptable text carries an image
    that can be saved but an [x], [y] or [ts] that is no 64-bit integer, the
    answer is the 500 error and no row is stored, yet the image file has
    been written and stays in the uploads directory. *)
Theorem submit_report_overflow_keeps_file `{StrLowerLaws} `{B64Decode}
    (_mgc : list string) (amb : Ambient) (payload : ReportSubmit.t)
    (request : Request) (st : Store) (u mime b64 : string) (raw : bytes) :
  upload_authorized request ->
  ~ banned (ReportSubmit.text payload) _mgc ->
  report_binds amb payload = false ->
  ReportSubmit.imgData payload = Some u ->
  image_data_url u mime b64 -> b64decode b64 = Some raw ->
  exists st' : Store,
    submit_report _mgc amb payload request st = (Raise 500 OverflowError, st')
    /\ reports st' = reports st /\ scores st' = scores st
    /\ uploads st'
       = <[upload_fname amb (default "jpg" (ext_map !! str_lower mime)) := raw]>
           (uploads st).
Proof.
  intros Hpwd Hok Hbinds Hu Hshape Hdec.
  rewrite (submit_report_overflow _mgc amb payload request st Hpwd Hok Hbinds).
  rewrite Hu; simpl. eexists. split_and!; try done. simpl.
  destruct (_save_data_url_to_file_spec u amb (uploads st))
    as [(mime' & b64' & raw' & Hshape' & Hdec' & ->)|[Hno _]]; simpl.
  - destruct (image_data_url_unique _ _ _ _ _ Hshape Hshape') as [<- <-].
    congruence.
  - rewrite (Hno mime b64 Hshape) in Hdec. discriminate.
Qed.

Lemma submit_report_overflow_keeps_file_witness :
  exists st' : Store,
    submit_report ["bad"] amb0
      (ReportSubmit.mk "hello" None (Some id_too_big) None None
         (Some "data:image/png;base64,aGk="))
      (hdr "123") empty_store
    = (Raise 500 OverflowError, st')
    /\ reports st' = reports empty_store /\ scores st' = scores empty_store
    /\ uploads st'
       = <[upload_fname amb0 (default "jpg" (ext_map !! str_lower "image/png"))
             := [x68; x69]]> (uploads empty_store).
Proof.
  apply (@submit_report_overflow_keeps_file ascii_StrLower ascii_str_lower_laws
           rfc4648_B64Decode ["bad"] amb0
           (ReportSubmit.mk "hello" None (Some id_too_big) None None
              (Some "data:image/png;base64,aGk="))
           (hdr "123") empty_store "data:image/png;base64,aGk=" "image/png" "aGk=").
  - by vm_compute.
  - intros Hb%(@contains_mgc_Some _ ascii_str_lower_laws). vm_compute in Hb. discriminate.
  - reflexivity.
  - reflexivity.
  - apply match_data_url_spec. reflexivity.
  - reflexivity.
Defined.

(** X28. A score that is not banned but has a score, found count or
    creation time that is no 64-bit integer is answered with the 500 error,
    and the store is left as it was. *)
Theorem submit_score_overflow `{StrLowerLaws} (_mgc : list string) (now : Z)
    (payload : ScoreSubmit.t) (st : Store) :
  ~ banned (ScoreSubmit.playerName payload) _mgc ->
  ~ banned (ScoreSubmit.character payload) _mgc ->
  score_binds now payload = false ->
  submit_score _mgc now payload st = (Raise 500 OverflowError, st).
Proof.
  intros Hname Hchar Hbinds. unfold submit_score.
  destruct (contains_mgc (Some (ScoreSubmit.playerName payload)) _mgc) eqn:E1;
    [by apply contains_mgc_Some in E1|].
  destruct (contains_mgc (Some (ScoreSubmit.character payload)) _mgc) eqn:E2;
    [by apply contains_mgc_Some in E2|].
  by rewrite Hbinds.
Qed.

Lemma submit_score_overflow_witness :
  submit_score ["bad"] 1700000000 (ScoreSubmit.mk "Ann" "Fox" 100 3 (Some id_too_big))
    three_scores
  = (Raise 500 OverflowError, three_scores).
Proof.
  apply (@submit_score_overflow ascii_StrLower ascii_str_lower_laws ["bad"] 1700000000
           (ScoreSubmit.mk "Ann" "Fox" 100 3 (Some id_too_big)) three_scores).
  - intros Hb%(@contains_mgc_Some _ ascii_str_lower_laws). vm_compute in Hb. discriminate.
  - intros Hb%(@contains_mgc_Some _ ascii_str_lower_laws). vm_compute in Hb. discriminate.
  - reflexivity.
Defined.

(** X29. A page of the listing so far out that the offset of the clamped
    page is no 64-bit integer gets the 500 error, whatever the reports. *)
Theorem list_reports_far_page `{OrderBy} (page limit page' limit' : Z) (st : Store) :
  clamped_page page page' -> clamped_limit limit limit' ->
  sqlite_int ((page' - 1) * limit') = false ->
  list_reports page limit st = Raise 500 OverflowError.
Proof.
  intros ->%clamped_page_eq ->%clamped_limit_eq Hoffset.
  by rewrite list_reports_unfold, Hoffset.
Qed.

Lemma list_reports_far_page_witness :
  list_reports page_too_far 1 one_report = Raise 500 OverflowError.
Proof.
  apply (@list_reports_far_page merge_sort_OrderBy page_too_far 1 page_too_far 1 one_report).
  - right. split; [by vm_compute | reflexivity].
  - right. left. split; [lia | reflexivity].
  - reflexivity.
Defined.
